(** * django-store: the cart, checkout and payment-settlement core

    A shallow embedding of [store/core/views.py] and of the model classes of
    [store/core/models.py] that the views read and write, with the cart
    filters of [store/core/templatetags/cart_extras.py], the crop box of
    [store/account/models.py] and [CategoryAdmin.save_model] of
    [store/core/admin.py].

    - Python [int] is [Z]; Python [float] (prices after discount, totals, VAT)
      is modelled by exact rationals [Q], so rounding error of binary
      floating point is outside this development.
    - A Python [dict] is an association list in insertion order.
    - A database table is a finite map from primary key to row; a model
      instance is a primary key paired with its column values.
    - A view is a state-and-exception computation over the database, the
      session and the log of requests sent to the payment gateway.  Every
      [save()] is committed at once (Django's autocommit default; the views
      open no transaction), so what was saved before an uncaught exception
      stays saved. *)

From Stdlib Require Import ZArith QArith Qround Lia Lqa Ascii.
From stdpp Require Import gmap strings list fin_maps pretty.

Open Scope Z_scope.

(** ** Python runtime *)

Module Py.

Inductive exn : Type :=
| DoesNotExist
| MultipleObjectsReturned
| ValueError
| TypeError
| AttributeError
| KeyError
| Http404
| RequestException.

Inductive result (A : Type) : Type :=
| Ok (a : A)
| Raise (e : exn).
Global Arguments Ok {A} a.
Global Arguments Raise {A} e.

Definition result_bind {A B} (f : A → result B) (r : result A) : result B :=
  match r with
  | Ok a => f a
  | Raise e => Raise e
  end.

Global Instance result_ret : MRet result := λ A a, Ok a.
Global Instance result_mbind : MBind result := λ A B f r, result_bind f r.

(** [str(n)] for an [int]. *)
Definition str (n : Z) : string := pretty n.

Definition is_digit (c : ascii) : bool :=
  match Ascii.is_nat c with
  | Some _ => true
  | None => false
  end.

Fixpoint all_digits (s : string) : bool :=
  match s with
  | EmptyString => true
  | String c s' => is_digit c && all_digits s'
  end.

(** [s.isdigit()]: non-empty and made of decimal digits (ASCII digits only). *)
Definition isdigit (s : string) : bool :=
  match s with
  | EmptyString => false
  | _ => all_digits s
  end.

Fixpoint digits_value (acc : Z) (s : string) : Z :=
  match s with
  | EmptyString => acc
  | String c s' =>
      digits_value (10 * acc + Z.of_nat (default 0%nat (Ascii.is_nat c))) s'
  end.

(** [int(s)] for a [str]: an optional sign followed by decimal digits, and
    [ValueError] otherwise.  (Python also accepts surrounding whitespace and
    underscores between digits; such strings are never cart keys.) *)
Definition int (s : string) : result Z :=
  match s with
  | String "-"%char s' =>
      if isdigit s' then Ok (- digits_value 0 s') else Raise ValueError
  | String "+"%char s' =>
      if isdigit s' then Ok (digits_value 0 s') else Raise ValueError
  | _ => if isdigit s then Ok (digits_value 0 s) else Raise ValueError
  end.

(** [x or y] on numbers: [y] when [x] is zero. *)
Definition or_ (x y : Q) : Q := if Qeq_bool x 0 then y else x.

(** [int(x)] for a [float]: truncation towards zero. *)
Definition int_of_float (x : Q) : Z := Z.quot (Qnum x) (Zpos (Qden x)).

(** Rounding of [x] to the nearest integer, ties to even. *)
Definition round_half_even (x : Q) : Z :=
  let f := Qfloor x in
  match ((x - inject_Z f) ?= (1 # 2))%Q with
  | Lt => f
  | Gt => f + 1
  | Eq => if Z.even f then f else f + 1
  end.

(** [round(x, 2)]. *)
Definition round2 (x : Q) : Q := Qred (inject_Z (round_half_even (x * 100)) / 100).

(** *** dict *)

Section dict.
Context {V : Type}.

Definition dict : Type := list (string * V).

Fixpoint dict_lookup (k : string) (d : dict) : option V :=
  match d with
  | [] => None
  | (k', v) :: d' => if decide (k' = k) then Some v else dict_lookup k d'
  end.

(** [d.get(k, dflt)] *)
Definition dict_get (k : string) (dflt : V) (d : dict) : V :=
  default dflt (dict_lookup k d).

(** [k in d] *)
Definition dict_contains (k : string) (d : dict) : bool :=
  bool_decide (is_Some (dict_lookup k d)).

(** [d[k] = v]: an existing key keeps its position, a new key goes last. *)
Fixpoint dict_setitem (k : string) (v : V) (d : dict) : dict :=
  match d with
  | [] => [(k, v)]
  | (k', v') :: d' =>
      if decide (k' = k) then (k', v) :: d' else (k', v') :: dict_setitem k v d'
  end.

(** [del d[k]] for a key that is present. *)
Fixpoint dict_delitem (k : string) (d : dict) : dict :=
  match d with
  | [] => []
  | (k', v') :: d' =>
      if decide (k' = k) then d' else (k', v') :: dict_delitem k d'
  end.

Definition dict_keys (d : dict) : list string := d.*1.

(** [d[k]] *)
Definition dict_getitem (k : string) (d : dict) : result V :=
  match dict_lookup k d with
  | Some v => Ok v
  | None => Raise KeyError
  end.

End dict.
Global Arguments dict : clear implicits.

(** *** JSON values, as [response.json()] returns them *)

#[local] Unset Elimination Schemes.
Inductive json : Type :=
| JNull
| JBool (b : bool)
| JNum (n : Z)
| JFloat (x : Q)
| JStr (s : string)
| JArr (l : list json)
| JObj (o : list (string * json)).
#[local] Set Elimination Schemes.

(** [v.get(k, dflt)]: only a [dict] has the method. *)
Definition json_get (k : string) (dflt : json) (v : json) : result json :=
  match v with
  | JObj o => Ok (dict_get k dflt o)
  | _ => Raise AttributeError
  end.

(** [v[k]] with a string key. *)
Definition json_getitem (k : string) (v : json) : result json :=
  match v with
  | JObj o => dict_getitem k o
  | _ => Raise TypeError
  end.

(** [v == n] for an [int] literal [n] other than 0 and 1. *)
Definition json_eq_int (v : json) (n : Z) : bool :=
  match v with
  | JNum m => bool_decide (m = n)
  | JFloat x => Qeq_bool x (inject_Z n)
  | _ => false
  end.

(** [str(v)]; the [repr] of a string inside a list or dict is written with
    single quotes and no escapes, and a float as numerator/denominator. *)
Fixpoint json_repr (v : json) : string :=
  match v with
  | JNull => "None"
  | JBool true => "True"
  | JBool false => "False"
  | JNum n => str n
  | JFloat x => str (Qnum x) +:+ "/" +:+ str (Zpos (Qden x))
  | JStr s => "'" +:+ s +:+ "'"
  | JArr l => "[" +:+ String.concat ", " (map json_repr l) +:+ "]"
  | JObj o =>
      "{" +:+ String.concat ", "
                (map (λ kv, match kv with
                            | (k, v') => "'" +:+ k +:+ "': " +:+ json_repr v'
                            end) o) +:+ "}"
  end.

Definition json_str (v : json) : string :=
  match v with
  | JStr s => s
  | _ => json_repr v
  end.

(** [str(e)] for a caught exception, reduced to the exception's class. *)
Definition exn_str (e : exn) : string :=
  match e with
  | DoesNotExist => "DoesNotExist"
  | MultipleObjectsReturned => "MultipleObjectsReturned"
  | ValueError => "ValueError"
  | TypeError => "TypeError"
  | AttributeError => "AttributeError"
  | KeyError => "KeyError"
  | Http404 => "Http404"
  | RequestException => "RequestException"
  end.

End Py.
Import Py.

(** ** Cart: the session's mapping from product id (as a string) to quantity *)

Abbreviation Cart := (dict Z).

(** ** Models ([store/core/models.py])

    Only the columns that the views read or write are kept: [Product] without
    slug, description, category and image, [Invoice] without its creation
    date, and no model carries the bookkeeping columns of [Base]. *)

Module Product.
Record t : Type := mk {
  name : string;
  price : Z;          (* IntegerField(default=0) *)
  discount : Q;       (* FloatField(default=0), "Discount percentage (0.0 to 100.0)" *)
  enabled : bool;
  count : Z           (* IntegerField(default=0) *)
}.
Definition with_count (c : Z) (p : t) : t :=
  mk (name p) (price p) (discount p) (enabled p) c.
End Product.

Module Invoice.
Record t : Type := mk {
  number : option Z;            (* IntegerField(null=True) *)
  user : Z;
  total : Q;
  discount : Q;                 (* default 0 *)
  description : option string;
  address : string;
  vat : Q                       (* default 9 *)
}.
Definition with_number (n : option Z) (i : t) : t :=
  mk n (user i) (total i) (discount i) (description i) (address i) (vat i).
End Invoice.

Module InvoiceItem.
Record t : Type := mk {
  product : Z;        (* ForeignKey(Product, PROTECT) *)
  invoice : Z;        (* ForeignKey(Invoice, CASCADE) *)
  count : Z;
  price : Q;
  discount : Q;
  total : Q;
  name : string
}.
End InvoiceItem.

Module Payment.
Inductive status_t : Type := STATUS_PENDING | STATUS_DONE | STATUS_ERROR.
Global Instance status_eq_dec : EqDecision status_t.
Proof. solve_decision. Defined.

Record t : Type := mk {
  invoice : Z;                  (* OneToOneField(Invoice, PROTECT) *)
  total : Q;
  ref : option string;
  status : status_t;            (* default STATUS_PENDING *)
  authority : string;
  description : string;
  user_ip : option string;
  error_code : option string;
  error_message : option string
}.
Definition with_status (s : status_t) (p : t) : t :=
  mk (invoice p) (total p) (ref p) s (authority p) (description p)
     (user_ip p) (error_code p) (error_message p).
Definition with_ref (r : option string) (p : t) : t :=
  mk (invoice p) (total p) r (status p) (authority p) (description p)
     (user_ip p) (error_code p) (error_message p).
Definition with_authority (a : string) (p : t) : t :=
  mk (invoice p) (total p) (ref p) (status p) a (description p)
     (user_ip p) (error_code p) (error_message p).
Definition with_error_code (c : option string) (p : t) : t :=
  mk (invoice p) (total p) (ref p) (status p) (authority p) (description p)
     (user_ip p) c (error_message p).
Definition with_error_message (m : option string) (p : t) : t :=
  mk (invoice p) (total p) (ref p) (status p) (authority p) (description p)
     (user_ip p) (error_code p) m.
End Payment.

Record DB : Type := mkDB {
  products : gmap Z Product.t;
  invoices : gmap Z Invoice.t;
  invoice_items : gmap Z InvoiceItem.t;
  payments : gmap Z Payment.t
}.

(** ** The world a request runs in *)

Record GatewayRequest : Type := mkGatewayRequest {
  url : string;
  data : json
}.

Record World : Type := mkWorld {
  db : DB;
  session_cart : option Cart;           (* request.session.get('cart') *)
  outbox : list GatewayRequest          (* requests sent to the gateway, latest first *)
}.

Definition View (A : Type) : Type := World → result A * World.

Global Instance View_ret : MRet View := λ A a w, (Ok a, w).
Global Instance View_bind : MBind View := λ A B f m w,
  match m w with
  | (Ok a, w') => f a w'
  | (Raise e, w') => (Raise e, w')
  end.

Definition raise {A} (e : exn) : View A := λ w, (Raise e, w).

Definition lift {A} (r : result A) : View A := λ w, (r, w).

(** [try: body except ...: handler]; the handler answers [None] for an
    exception that its [except] clause does not name. *)
Definition try_except {A} (body : View A) (handler : exn → option (View A))
  : View A := λ w,
  match body w with
  | (Ok a, w') => (Ok a, w')
  | (Raise e, w') =>
      match handler e with
      | Some h => h w'
      | None => (Raise e, w')
      end
  end.

(** [try: x = body except ...: return response], followed by the rest of
    the function, which uses [x]. *)
Definition try_or_return {A R} (body : View A) (handler : exn → option R)
    (rest : A → View R) : View R := λ w,
  match body w with
  | (Ok a, w') => rest a w'
  | (Raise e, w') =>
      match handler e with
      | Some r => (Ok r, w')
      | None => (Raise e, w')
      end
  end.

Definition get_db : View DB := λ w, (Ok (db w), w).

Definition put_db (d : DB) : View unit := λ w,
  (Ok tt, mkWorld d (session_cart w) (outbox w)).

Definition get_session_cart : View (option Cart) := λ w, (Ok (session_cart w), w).

(** [request.session['cart'] = cart] *)
Definition set_session_cart (cart : Cart) : View unit := λ w,
  (Ok tt, mkWorld (db w) (Some cart) (outbox w)).

(** ** The ORM calls the views make *)

(** [Model.objects.get(id=k)], also through a foreign key ([item.product],
    [payment.invoice]) and on a filtered queryset. *)
Definition objects_get {R} (k : Z) (table : gmap Z R) : result (Z * R) :=
  match table !! k with
  | Some r => Ok (k, r)
  | None => Raise DoesNotExist
  end.

(** The primary key an [AutoField] gives to the next inserted row. *)
Definition next_pk {R} (table : gmap Z R) : Z :=
  1 + map_fold (λ k _ acc, Z.max k acc) 0 table.

(** [instance.save()] of a new instance. *)
Definition objects_create {R} (r : R) (table : gmap Z R) : Z * gmap Z R :=
  let k := next_pk table in (k, <[k := r]> table).

(** [Model.objects.bulk_create(rows)] *)
Definition bulk_create {R} (rows : list R) (table : gmap Z R) : gmap Z R :=
  foldl (λ table r, (objects_create r table).2) table rows.

(** [Product.objects.filter(id__in=ids)] *)
Definition Product_objects_filter_id_in (ids : list Z)
    (table : gmap Z Product.t) : gmap Z Product.t :=
  filter (λ kv, kv.1 ∈ ids) table.

(** [Payment.objects.get(authority=a, status=s)] *)
Definition Payment_objects_get (a : string) (s : Payment.status_t)
    (table : gmap Z Payment.t) : result (Z * Payment.t) :=
  match map_to_list
          (filter (λ kv, Payment.authority kv.2 = a ∧ Payment.status kv.2 = s)
                  table) with
  | [] => Raise DoesNotExist
  | [payment] => Ok payment
  | _ => Raise MultipleObjectsReturned
  end.

(** [InvoiceItem.objects.filter(invoice=invoice)] *)
Definition InvoiceItem_objects_filter_invoice (invoice : Z)
    (table : gmap Z InvoiceItem.t) : list (Z * InvoiceItem.t) :=
  map_to_list (filter (λ kv, InvoiceItem.invoice kv.2 = invoice) table).

Definition max_number (n : option Z) (acc : option Z) : option Z :=
  match n, acc with
  | Some a, Some b => Some (Z.max a b)
  | Some a, None => Some a
  | None, _ => acc
  end.

(** [Invoice.objects.aggregate(Max('number'))['number__max']] *)
Definition Invoice_objects_aggregate_Max_number
    (table : gmap Z Invoice.t) : option Z :=
  map_fold (λ _ inv acc, max_number (Invoice.number inv) acc) None table.

Definition set_products (t : gmap Z Product.t) (d : DB) : DB :=
  mkDB t (invoices d) (invoice_items d) (payments d).
Definition set_invoices (t : gmap Z Invoice.t) (d : DB) : DB :=
  mkDB (products d) t (invoice_items d) (payments d).
Definition set_invoice_items (t : gmap Z InvoiceItem.t) (d : DB) : DB :=
  mkDB (products d) (invoices d) t (payments d).
Definition set_payments (t : gmap Z Payment.t) (d : DB) : DB :=
  mkDB (products d) (invoices d) (invoice_items d) t.

(** [product.save()] of a fetched product *)
Definition Product_save (product : Z * Product.t) : View unit :=
  d ← get_db; put_db (set_products (<[product.1 := product.2]> (products d)) d).

(** [invoice.save()] of a fetched invoice *)
Definition Invoice_save (invoice : Z * Invoice.t) : View unit :=
  d ← get_db; put_db (set_invoices (<[invoice.1 := invoice.2]> (invoices d)) d).

(** [invoice.save()] of a new invoice; answers the new [invoice.id]. *)
Definition Invoice_create (invoice : Invoice.t) : View Z :=
  d ← get_db;
  let '(k, t) := objects_create invoice (invoices d) in
  put_db (set_invoices t d);; mret k.

Definition InvoiceItem_bulk_create (rows : list InvoiceItem.t) : View unit :=
  d ← get_db; put_db (set_invoice_items (bulk_create rows (invoice_items d)) d).

(** [payment.save()] of a fetched payment *)
Definition Payment_save (payment : Z * Payment.t) : View unit :=
  d ← get_db; put_db (set_payments (<[payment.1 := payment.2]> (payments d)) d).

(** [payment.save()] of a new payment *)
Definition Payment_create (payment : Payment.t) : View Z :=
  d ← get_db;
  let '(k, t) := objects_create payment (payments d) in
  put_db (set_payments t d);; mret k.

(** ** Cart store and pricing ([store/core/views.py]) *)

Definition get_cart (session : option Cart) : Cart :=
  let cart := default [] session in
  match cart with
  | [] => []
  | _ => cart
  end.

Definition add_to_cart (cart : Cart) (obj : Z * Product.t) : Cart :=
  if bool_decide (Product.count obj.2 > 0) && Product.enabled obj.2
  then dict_setitem (str obj.1) (dict_get (str obj.1) 0 cart + 1) cart
  else cart.

Definition remove_from_cart (cart : Cart) (item_id : Z) : Cart :=
  let item_id_str := str item_id in
  if dict_contains item_id_str cart then dict_delitem item_id_str cart else cart.

(** [[int(id) for id in cart.keys() if id.isdigit()]] *)
Definition cart_product_ids (cart : Cart) : result (list Z) :=
  mapM int (List.filter isdigit (dict_keys cart)).

(** One turn of the loop of [get_cart_total_price]. *)
Definition add_line_price (product_map : gmap Z Product.t) (total : Q)
    (line : string * Z) : Q :=
  match int line.1 with
  | Raise _ => total
  | Ok product_id =>
      match product_map !! product_id with
      | None => total
      | Some product =>
          let discount := or_ (Product.discount product) 0 in
          let price := inject_Z (Product.price product) in
          let count := if isdigit (str line.2) then line.2 else 0 in
          (total + price * (1 - discount / 100) * inject_Z count)%Q
      end
  end.

Definition get_cart_total_price (table : gmap Z Product.t) (cart : Cart) : Q :=
  let total := 0%Q in
  match cart with
  | [] => total
  | _ =>
      match cart_product_ids cart with
      | Raise _ => 0%Q
      | Ok [] => 0%Q
      | Ok product_ids =>
          let product_map := Product_objects_filter_id_in product_ids table in
          round2 (foldl (add_line_price product_map) total cart)
      end
  end.

Module CartItem.
Record t : Type := mk {
  product : Z * Product.t;
  count : Z;
  price : Q;
  discount : Q;
  total : Q
}.
End CartItem.

(** The loop of [prepare_cart_data]: [ValueError] from [int(item_id)]
    leaves the loop, [Product.DoesNotExist] skips the line. *)
Fixpoint prepare_cart_lines (table : gmap Z Product.t) (lines : Cart)
    (cart_items : list CartItem.t) (subtotal : Z)
  : result (list CartItem.t * Z) :=
  match lines with
  | [] => Ok (cart_items, subtotal)
  | (item_id, count) :: lines' =>
      match int item_id with
      | Raise e => Raise e
      | Ok id =>
          match objects_get id table with
          | Raise DoesNotExist => prepare_cart_lines table lines' cart_items subtotal
          | Raise e => Raise e
          | Ok product =>
              let item_total :=
                (inject_Z (Product.price product.2 * count)
                 * (1 - Product.discount product.2 / 100))%Q in
              prepare_cart_lines table lines'
                (cart_items ++
                   [CartItem.mk product count (inject_Z (Product.price product.2))
                      (Product.discount product.2) item_total])
                (subtotal + Product.price product.2 * count)
          end
      end
  end.

Definition prepare_cart_data (table : gmap Z Product.t) (cart : Cart)
  : result (list CartItem.t * Q * Q * Q * Q) :=
  product_ids ← cart_product_ids cart;
  let products := Product_objects_filter_id_in product_ids table in
  '(cart_items, subtotal) ← prepare_cart_lines products cart [] 0;
  let discount_total :=
    (inject_Z subtotal - foldl Qplus 0 (CartItem.total <$> cart_items))%Q in
  let vat_rate := 9%Q in
  let vat_amount := ((inject_Z subtotal - discount_total) * vat_rate / 100)%Q in
  let total := ((inject_Z subtotal - discount_total) + vat_amount)%Q in
  mret (cart_items, inject_Z subtotal, discount_total, vat_amount, total).

(** ** Requests and responses *)

Record HttpRequest : Type := mkRequest {
  user : option (Z * string);   (* the logged-in user's id and email *)
  GET : dict string;
  POST : dict string;
  META : dict string;
  headers : dict string;
  scheme_host : string          (* what [build_absolute_uri] puts before a path *)
}.

Module InvoiceForm.
(** [forms.InvoiceForm]: a [ModelForm] of [Invoice] with the fields
    [address] and [description]. *)
Record t : Type := mk {
  address : option string;
  description : option string
}.
Definition bind (post : dict string) : t :=
  mk (dict_lookup "address" post) (dict_lookup "description" post).
(** [address] is required and at most 255 characters, [description] is
    optional (the field's whitespace stripping is left out). *)
Definition is_valid (form : t) : bool :=
  match address form with
  | Some a => negb (bool_decide (a = "")) && bool_decide (String.length a ≤ 255)%nat
  | None => false
  end.
(** [form.save(commit=False)]; the user is set by the view. *)
Definition save (form : t) (user : Z) : Invoice.t :=
  Invoice.mk None user 0 0 (description form) (default "" (address form)) 9.
End InvoiceForm.

Inductive ctx_value : Type :=
| CStr (s : string)
| CInt (n : Z)
| CJson (v : json)
| CForm (form : InvoiceForm.t).

Inductive HttpResponse : Type :=
| render (template : string) (context : list (string * ctx_value))
| redirect (to : string)
| JsonResponse (body : json).

(** The routes of [store/core/urls.py] that the views redirect to. *)
Definition reverse (name : string) : string :=
  if bool_decide (name = "core:product_list") then "/"
  else if bool_decide (name = "core:cart_show") then "/cart"
  else if bool_decide (name = "core:verify") then "/verify"
  else name.

(** Where [LoginRequiredMixin] sends an anonymous user (Django's default). *)
Definition LOGIN_URL : string := "/accounts/login/".

Definition build_absolute_uri (request : HttpRequest) (path : string) : string :=
  scheme_host request +:+ path.

Definition ZARINPAL_MERCHANT_ID : string := "xxxxxxxx-xxxx-xxxx-xxxx-xxxxxxxxxxxx".
Definition ZARINPAL_REQUEST_URL : string :=
  "https://sandbox.zarinpal.com/pg/v4/payment/request.json".
Definition ZARINPAL_VERIFY_URL : string :=
  "https://sandbox.zarinpal.com/pg/v4/payment/verify.json".
Definition ZARINPAL_START_PAY_URL : string :=
  "https://sandbox.zarinpal.com/pg/StartPay/".

Fixpoint before_comma (s : string) : string :=
  match s with
  | EmptyString => EmptyString
  | String c s' =>
      if bool_decide (c = ","%char) then EmptyString else String c (before_comma s')
  end.

Definition get_user_ip (request : HttpRequest) : option string :=
  match dict_lookup "HTTP_X_FORWARDED_FOR" (META request) with
  | Some (String c s) => Some (before_comma (String c s))
  | _ => dict_lookup "REMOTE_ADDR" (META request)
  end.

Definition is_ajax (request : HttpRequest) : bool :=
  bool_decide (dict_lookup "X-Requested-With" (headers request) = Some "XMLHttpRequest").

Definition cart_json (cart : Cart) : json :=
  JObj ((λ kv, (kv.1, JNum kv.2)) <$> cart).

(** ** Views *)

Section views.

(** The payment gateway: what [requests.post(...).json()] answers to a
    request, [Raise RequestException] standing for every failure of the
    exchange (no connection, timeout, a body that is not JSON). *)
Context (gateway : GatewayRequest → result json).

Definition requests_post (url : string) (data : json) : View json := λ w,
  let r := mkGatewayRequest url data in
  (gateway r, mkWorld (db w) (session_cart w) (r :: outbox w)).

Definition AddToCartView_get (request : HttpRequest) (item_id : Z)
  : View HttpResponse :=
  session ← get_session_cart;
  let cart := get_cart session in
  d ← get_db;
  match objects_get item_id (products d) with
  | Raise _ => raise Http404
  | Ok obj =>
      let cart := add_to_cart cart obj in
      set_session_cart cart;;
      if is_ajax request then mret (JsonResponse (cart_json cart))
      else mret (redirect (reverse "core:product_list"))
  end.

Definition RemoveFromCartView_post (request : HttpRequest) (item_id : Z)
  : View HttpResponse :=
  session ← get_session_cart;
  let cart := get_cart session in
  let cart := remove_from_cart cart item_id in
  set_session_cart cart;;
  d ← get_db;
  let total := get_cart_total_price (products d) cart in
  if is_ajax request
  then mret (JsonResponse (JObj [("cart", cart_json cart); ("total", JFloat total)]))
  else mret (redirect (reverse "core:cart_show")).

Definition EmptyCartView_get (request : HttpRequest) : View HttpResponse :=
  set_session_cart [];;
  if is_ajax request then mret (JsonResponse (JObj []))
  else mret (redirect (reverse "core:product_list")).

(** The loop of [CheckoutCartView.post] that snapshots the cart lines; no
    exception is caught in it. *)
Fixpoint build_invoice_items (items : gmap Z Product.t) (invoice : Z)
    (lines : Cart) (invoice_item : list InvoiceItem.t)
  : result (list InvoiceItem.t) :=
  match lines with
  | [] => Ok invoice_item
  | (item_id, item_count) :: lines' =>
      id ← int item_id;
      obj ← objects_get id items;
      let price := inject_Z (Product.price obj.2) in
      let discount := Product.discount obj.2 in
      let total :=
        (inject_Z (Product.price obj.2 * item_count) * (1 - discount / 100))%Q in
      build_invoice_items items invoice lines'
        (invoice_item ++
           [InvoiceItem.mk obj.1 invoice item_count price discount total
              (Product.name obj.2)])
  end.

Definition new_payment (invoice : Z * Invoice.t) (user_ip : option string)
  : Payment.t :=
  let total := (Invoice.total invoice.2 * (1 - Invoice.discount invoice.2 / 100))%Q in
  let total := (total + (Invoice.vat invoice.2 / 100) * total)%Q in
  Payment.mk invoice.1 total None Payment.STATUS_PENDING "" "" user_ip None None.

(** The exchange with the gateway in [CheckoutCartView.post]: the [try]
    block and its [except Exception] clause, for the unsaved [payment]. *)
Definition request_payment (payment : Payment.t) (request_data : json)
  : View HttpResponse :=
  try_except
    (response_data ← requests_post ZARINPAL_REQUEST_URL request_data;
     data ← lift (json_get "data" (JObj []) response_data);
     code ← lift (json_get "code" JNull data);
     if json_eq_int code 100 then
       data ← lift (json_getitem "data" response_data);
       authority ← lift (json_getitem "authority" data);
       let payment := Payment.with_authority (json_str authority) payment in
       Payment_create payment;;
       mret (redirect (ZARINPAL_START_PAY_URL +:+ json_str authority))
     else
       errors ← lift (json_get "errors" (JObj []) response_data);
       error_code ← lift (json_get "code" (JStr "Unknown") errors);
       errors ← lift (json_get "errors" (JObj []) response_data);
       error_message ←
         lift (json_get "message" (JStr "unknown error in payment") errors);
       let payment := Payment.with_status Payment.STATUS_ERROR payment in
       let payment := Payment.with_error_code (Some (json_str error_code)) payment in
       let payment :=
         Payment.with_error_message (Some (json_str error_message)) payment in
       Payment_create payment;;
       mret (render "core/checkout_error.html" [("msg", CJson error_message)]))
    (λ e, Some (
       let payment := Payment.with_status Payment.STATUS_ERROR payment in
       let payment :=
         Payment.with_error_message
           (Some ("error in connection to zarinpal: " +:+ exn_str e)) payment in
       Payment_create payment;;
       mret (render "core/checkout_error.html"
               [("msg", CStr "Couldn't connect to zarinpal. please try again later!")]))).

Definition CheckoutCartView_post (request : HttpRequest) : View HttpResponse :=
  match user request with
  | None => mret (redirect LOGIN_URL)     (* LoginRequiredMixin *)
  | Some (user_id, email) =>
      let form := InvoiceForm.bind (POST request) in
      if InvoiceForm.is_valid form then
        let invoice := InvoiceForm.save form user_id in
        session ← get_session_cart;
        let cart := get_cart session in
        d ← get_db;
        let invoice :=
          Invoice.mk (Invoice.number invoice) (Invoice.user invoice)
            (get_cart_total_price (products d) cart) (Invoice.discount invoice)
            (Invoice.description invoice) (Invoice.address invoice)
            (Invoice.vat invoice) in
        invoice_id ← Invoice_create invoice;
        product_ids ← lift (cart_product_ids cart);
        let items := Product_objects_filter_id_in product_ids (products d) in
        invoice_item ← lift (build_invoice_items items invoice_id cart []);
        InvoiceItem_bulk_create invoice_item;;
        let payment := new_payment (invoice_id, invoice) (get_user_ip request) in
        let callback_url := build_absolute_uri request (reverse "core:verify") in
        let request_data :=
          JObj [("merchant_id", JStr ZARINPAL_MERCHANT_ID);
                ("amount", JNum (int_of_float (Payment.total payment)));
                ("currency", JStr "IRT");
                ("description", JStr ("invoice, No. " +:+ str invoice_id));
                ("callback_url", JStr callback_url);
                ("metadata", JObj [("email", JStr email)])] in
        request_payment payment request_data
      else mret (render "core/checkout.html" [("form", CForm form)])
  end.

(** The stock loop of [VerifyView.get]: every item fetches its product,
    takes the item's count off and saves the product. *)
Fixpoint update_product_counts (invoice_items : list (Z * InvoiceItem.t))
  : View unit :=
  match invoice_items with
  | [] => mret tt
  | item :: invoice_items' =>
      d ← get_db;
      product ← lift (objects_get (InvoiceItem.product item.2) (products d));
      let product :=
        (product.1,
         Product.with_count (Product.count product.2 - InvoiceItem.count item.2)
                            product.2) in
      Product_save product;;
      update_product_counts invoice_items'
  end.

Definition payment_failed (reason : string) : HttpResponse :=
  render "core/payment_failed.html" [("reason", CStr reason)].

(** [VerifyView.get] from "# Check the verification result" on, for the
    pending [payment] and the gateway's [verify_result]. *)
Definition check_verification_result (payment : Z * Payment.t)
    (verify_result : json) : View HttpResponse :=
  data ← lift (json_get "data" JNull verify_result);
  code ← lift (json_get "code" JNull data);
  if json_eq_int code 100 then
    data ← lift (json_getitem "data" verify_result);
    ref_id ← lift (json_getitem "ref_id" data);
    let payment :=
      (payment.1,
       Payment.with_status Payment.STATUS_DONE
         (Payment.with_ref (Some (json_str ref_id)) payment.2)) in
    Payment_save payment;;
    d ← get_db;
    invoice ← lift (objects_get (Payment.invoice payment.2) (invoices d));
    let invoice :=
      match Invoice.number invoice.2 with
      | None =>
          let max_number := Invoice_objects_aggregate_Max_number (invoices d) in
          (* (max_number or 0) + 1 *)
          (invoice.1,
           Invoice.with_number (Some (default 0 max_number + 1)) invoice.2)
      | Some _ => invoice
      end in
    update_product_counts
      (InvoiceItem_objects_filter_invoice invoice.1 (invoice_items d));;
    Invoice_save invoice;;
    set_session_cart [];;
    mret (render "core/payment_success.html"
            [("ref_id", CJson ref_id);
             ("amount", CInt (int_of_float (Payment.total payment.2)))])
  else
    let payment :=
      (payment.1, Payment.with_status Payment.STATUS_ERROR payment.2) in
    Payment_save payment;;
    mret (payment_failed "Payment not verified!!").

Definition VerifyView_get (request : HttpRequest) : View HttpResponse :=
  let status := dict_lookup "Status" (GET request) in
  let authority := dict_lookup "Authority" (GET request) in
  match authority with
  | None | Some EmptyString => mret (payment_failed "Payment was cancelled!")
  | Some authority =>
      d ← get_db;
      try_or_return
        (lift (Payment_objects_get authority Payment.STATUS_PENDING (payments d)))
        (λ e, match e with
              | DoesNotExist => Some (payment_failed "There is no payment document!")
              | _ => None
              end)
        (λ payment,
      if negb (bool_decide (status = Some "OK")) then
        let payment := (payment.1, Payment.with_status Payment.STATUS_ERROR payment.2) in
        Payment_save payment;;
        mret (payment_failed "Payment was canceled by the user.")
      else
        let verify_data :=
          JObj [("merchant_id", JStr ZARINPAL_MERCHANT_ID);
                ("amount", JNum (int_of_float (Payment.total payment.2)));
                ("authority", JStr authority)] in
        try_or_return
          (requests_post ZARINPAL_VERIFY_URL verify_data)
          (λ e, match e with
                | RequestException => Some (payment_failed "Network error!")
                | _ => None
                end)
          (check_verification_result payment))
  end.

End views.

(** ** The requests that change the database or the session

    The other views ([ListProducts], [ShowCartView], [CheckoutCartView.get],
    [SearchView], [ProductListAPIView]) only read. *)

Inductive Request : Type :=
| GET_cart_add (request : HttpRequest) (item_id : Z)
| POST_cart_remove (request : HttpRequest) (item_id : Z)
| GET_cart_empty (request : HttpRequest)
| POST_checkout (request : HttpRequest)
| GET_verify (request : HttpRequest).

Definition handle (gateway : GatewayRequest → result json) (r : Request)
  : View HttpResponse :=
  match r with
  | GET_cart_add request item_id => AddToCartView_get request item_id
  | POST_cart_remove request item_id => RemoveFromCartView_post request item_id
  | GET_cart_empty request => EmptyCartView_get request
  | POST_checkout request => CheckoutCartView_post gateway request
  | GET_verify request => VerifyView_get gateway request
  end.

(** ** Scenarios *)

Definition pen : Product.t := Product.mk "pen" 100 10 true 10.

(** *** Pricing, in the words of the specification *)

(** The line a cart entry is priced as: [None] when its key names no
    product, and otherwise the product with the entry's count and
    [line_total = price * count * (1 - discount/100)]. *)
Definition priced_line (table : gmap Z Product.t) (line : string * Z)
  : option CartItem.t :=
  match int line.1 with
  | Ok id =>
      match table !! id with
      | Some p =>
          Some (CartItem.mk (id, p) line.2 (inject_Z (Product.price p))
                  (Product.discount p)
                  (inject_Z (Product.price p * line.2)
                   * (1 - Product.discount p / 100))%Q)
      | None => None
      end
  | Raise _ => None
  end.

Definition Qsum (l : list Q) : Q := foldr Qplus 0%Q l.

(** [price * count] of a priced line, before discount. *)
Definition line_amount (it : CartItem.t) : Q :=
  (inject_Z (Product.price (CartItem.product it).2) * inject_Z (CartItem.count it))%Q.

(** Scenario A: product 5 costs 100 with a 10% discount, 10 in stock. *)
Definition scenario_A_products : gmap Z Product.t := {[ 5 := pen ]}.
Definition scenario_A_cart : Cart := [("5", 2)].

(** A product whose discount is above 100 percent. *)
Definition overdiscounted : Product.t := Product.mk "sample" 100 200 true 10.

(** *** Invoice building, in the words of the specification *)




(** A shop with the product of scenario A and nothing sold yet. *)
Definition shop_db : DB := mkDB {[ 5 := pen ]} ∅ ∅ ∅.

Definition shop (cart : Cart) : World := mkWorld shop_db (Some cart) [].

(** A logged-in buyer who submits the checkout form with an address. *)
Definition buyer_post : HttpRequest :=
  mkRequest (Some (1, "buyer@example.com")) []
    [("address", "1 Main Street")] [("REMOTE_ADDR", "203.0.113.7")] []
    "https://shop.example".

(** A gateway that grants the authority [A1] to a payment request of a
    positive amount and refuses any other with the error shape of the
    protocol, and that confirms every verify request with reference 777. *)
Definition sandbox_gateway (r : GatewayRequest) : result json :=
  if bool_decide (url r = ZARINPAL_REQUEST_URL) then
    match json_get "amount" JNull (data r) with
    | Ok (JNum n) =>
        if bool_decide (0 < n)
        then Ok (JObj [("data", JObj [("code", JNum 100); ("authority", JStr "A1")])])
        else Ok (JObj [("errors", JObj [("code", JNum (-9));
                                       ("message", JStr "bad amount")])])
    | _ => Raise RequestException
    end
  else Ok (JObj [("data", JObj [("code", JNum 100); ("ref_id", JNum 777)])]).

(** *** Settlement, in the words of the specification *)

(** The transaction reference of a verify response that carries the success
    code: [{"data": {"code": 100, "ref_id": ...}}]. *)
Definition verified_ref_id (verify_result : json) : option json :=
  match verify_result with
  | JObj o =>
      match dict_lookup "data" o with
      | Some (JObj data) =>
          match dict_lookup "code" data with
          | Some code =>
              if json_eq_int code 100 then dict_lookup "ref_id" data else None
          | None => None
          end
      | _ => None
      end
  | _ => None
  end.

(** A verify response with a [data] object whose code is not the success
    code. *)
Definition verify_refused (verify_result : json) : bool :=
  match verify_result with
  | JObj o =>
      match dict_lookup "data" o with
      | Some (JObj data) => negb (json_eq_int (dict_get "code" JNull data) 100)
      | _ => false
      end
  | _ => false
  end.

(** How many units of a product the given invoice items order. *)
Definition ordered_count (items : list (Z * InvoiceItem.t)) (product : Z) : Z :=
  foldr Z.add 0
    (InvoiceItem.count <$>
       filter (λ it, InvoiceItem.product it = product) items.*2).

(** Every InvoiceItem refers to a Product (the foreign key). *)
Definition items_have_product (d : DB) : bool :=
  bool_decide
    (map_Forall (λ _ it, is_Some (products d !! InvoiceItem.product it))
                (invoice_items d)).

(** The request that [VerifyView.get] sends for a payment. *)
Definition verify_request (authority : string) (payment : Payment.t)
  : GatewayRequest :=
  mkGatewayRequest ZARINPAL_VERIFY_URL
    (JObj [("merchant_id", JStr ZARINPAL_MERCHANT_ID);
           ("amount", JNum (int_of_float (Payment.total payment)));
           ("authority", JStr authority)]).

(** The callback of the gateway: [GET /verify?Status=...&Authority=...]. *)
Definition callback (status authority : string) : HttpRequest :=
  mkRequest None [("Status", status); ("Authority", authority)] [] [] []
    "https://shop.example".

(** The shop after the buyer has checked out the cart of scenario A: one
    invoice, one item and one pending payment with authority [A1]. *)
Definition awaiting_payment : World :=
  (CheckoutCartView_post sandbox_gateway buyer_post (shop scenario_A_cart)).2.

Definition pending_payment : Payment.t :=
  Payment.mk 1 (196200000 # 1000000) None Payment.STATUS_PENDING "A1" ""
    (Some "203.0.113.7") None None.

(** A gateway whose verify response has the error shape of the protocol,
    [{"errors": {...}}], with no [data] object. *)
Definition refusing_gateway (r : GatewayRequest) : result json :=
  Ok (JObj [("errors", JObj [("code", JNum (-51));
                             ("message", JStr "Session is not valid")])]).

(** The same refusal with an empty list under [data]. *)
Definition refusing_gateway_v4 (r : GatewayRequest) : result json :=
  Ok (JObj [("data", JArr []);
            ("errors", JObj [("code", JNum (-51));
                             ("message", JStr "Session is not valid")])]).

(** A gateway whose verify response has a [data] object with a code other
    than the success code. *)
Definition rejecting_gateway (r : GatewayRequest) : result json :=
  Ok (JObj [("data", JObj [("code", JNum (-51))])]).

(** *** Invoice numbering, in the words of the specification *)





(** ** Template filters ([store/core/templatetags/cart_extras.py]) *)

(** [get_item]: [dictionary.get(str(key))]. *)
Definition get_item (dictionary : Cart) (key : Z) : option Z :=
  dict_lookup (str key) dictionary.

(** [dict_values_sum]: [sum(int(v) for v in dictionary.values())]; the
    quantities of a cart are integers, so the [except] clause is not
    reached. *)
Definition dict_values_sum (dictionary : Cart) : Z :=
  foldl Z.add 0 dictionary.*2.

(** A cart as the session holds it: no key twice, every key a product id
    written in decimal, every quantity at least 1. *)
Definition cart_ok (cart : Cart) : Prop :=
  NoDup (dict_keys cart) ∧
  Forall (λ line, isdigit line.1 = true ∧ 1 ≤ line.2) cart.

(** The product id in the URL of a cart request ([<int:item_id>]) is not
    negative. *)
Definition url_ok (r : Request) : Prop :=
  match r with
  | GET_cart_add _ item_id | POST_cart_remove _ item_id => 0 ≤ item_id
  | _ => True
  end.


(** ** The avatar of a user ([store/account/models.py]) *)

(** The crop box [(left, top, right, bottom)] that [User._process_avatar]
    computes from the size of the uploaded image; [//] is floor division. *)
Definition avatar_crop_box (width height : Z) : Z * Z * Z * Z :=
  let min_dimension := Z.min width height in
  let left := (width - min_dimension) `div` 2 in
  let top := (height - min_dimension) `div` 2 in
  let right := left + min_dimension in
  let bottom := top + min_dimension in
  (left, top, right, bottom).

(** ** Change detection of an image field ([store/core/models.py],
    [store/account/models.py])

    [Product._image_has_changed] and [User._avatar_has_changed] are the same
    function of what they observe: the primary key, the name of the file
    kept in [_original_image] (a [FieldFile] is true when its name is not
    empty), the tracked [_original_image_name], the name of the current
    file, and whether the current file has a [temporary_file_path]. *)

(** Truth value of a primary key: [None] and 0 are false. *)
Definition pk_truthy (pk : option Z) : bool :=
  match pk with
  | None | Some 0 => false
  | Some _ => true
  end.

(** Truth value of a file name: [None] and the empty string are false. *)
Definition name_truthy (name : option string) : bool :=
  match name with
  | Some (String _ _) => true
  | _ => false
  end.

Definition _image_has_changed (pk : option Z)
    (_original_image _original_image_name image : option string)
    (has_temporary_file_path : bool) : bool :=
  if negb (pk_truthy pk) then name_truthy image
  else if negb (name_truthy _original_image) && negb (name_truthy image) then false
  else if negb (eqb (name_truthy _original_image) (name_truthy image)) then true
  else
    let current_name := if name_truthy image then image else None in
    if bool_decide (_original_image_name = current_name) then false
    else if has_temporary_file_path || negb (name_truthy current_name) then true
    else negb (bool_decide (_original_image_name = current_name)).

(** ** The category admin ([store/core/admin.py]) *)

Module Category.
(** The columns of [Category] (from [Base]) that [CategoryAdmin.save_model]
    reads or writes; a date is a point in time. *)
Record t : Type := mk {
  user_id : option Z;
  deleted : bool;
  deleted_date : option Z
}.
End Category.

(** [CategoryAdmin.save_model], with the id of [request.user] and the value
    of [timezone.now()]; the result is the object that is saved. *)
Definition CategoryAdmin_save_model (request_user : Z) (now : Z)
    (obj : Category.t) : Category.t :=
  let obj :=
    match Category.user_id obj with
    | None | Some 0 =>
        Category.mk (Some request_user) (Category.deleted obj)
          (Category.deleted_date obj)
    | Some _ => obj
    end in
  if Category.deleted obj && negb (bool_decide (is_Some (Category.deleted_date obj)))
  then Category.mk (Category.user_id obj) (Category.deleted obj) (Some now)
  else if negb (Category.deleted obj)
  then Category.mk (Category.user_id obj) (Category.deleted obj) None
  else obj.

(** * Properties *)

(** ** The cart store *)

Section dict_facts.
Context {V : Type}.
Implicit Types (d : dict V) (k : string) (v : V).

Lemma dict_lookup_setitem_eq d k v :
  dict_lookup k (dict_setitem k v d) = Some v.
Proof.
  induction d as [|[k' v'] d IH]; simpl.
  - by rewrite decide_True.
  - destruct (decide (k' = k)) as [->|Hne]; simpl.
    + by rewrite decide_True.
    + by rewrite decide_False.
Qed.

Lemma dict_lookup_setitem_ne d k k' v :
  k' ≠ k → dict_lookup k' (dict_setitem k v d) = dict_lookup k' d.
Proof.
  intros Hne. induction d as [|[k0 v0] d IH]; simpl.
  - by rewrite decide_False.
  - destruct (decide (k0 = k)) as [->|Hne0]; simpl.
    + by rewrite !decide_False.
    + destruct (decide (k0 = k')); [done | apply IH].
Qed.

(** An assignment keeps the keys that were there, in their order, and puts a
    new key last. *)
Lemma dict_contains_cons d k k' v :
  dict_contains k ((k', v) :: d) = bool_decide (k' = k) || dict_contains k d.
Proof.
  unfold dict_contains. simpl. destruct (decide (k' = k)) as [->|Hne].
  - rewrite (bool_decide_eq_true_2 (k = k)) by done.
    by rewrite bool_decide_eq_true_2 by by eexists.
  - by rewrite (bool_decide_eq_false_2 (k' = k)) by done.
Qed.

(** An assignment keeps the keys that were there, in their order, and puts a
    new key last. *)
Lemma dict_keys_setitem d k v :
  dict_keys (dict_setitem k v d) =
    if dict_contains k d then dict_keys d else dict_keys d ++ [k].
Proof.
  induction d as [|[k0 v0] d IH]; [done|].
  rewrite dict_contains_cons. simpl.
  destruct (decide (k0 = k)) as [->|Hne]; simpl.
  - by rewrite bool_decide_eq_true_2.
  - rewrite bool_decide_eq_false_2 by done. simpl.
    change (k0 :: dict_keys (dict_setitem k v d) =
              if dict_contains k d then k0 :: dict_keys d
              else k0 :: dict_keys d ++ [k]).
    rewrite IH. by destruct (dict_contains k d).
Qed.

End dict_facts.

(** C10.  [add_to_cart] leaves the cart as it is when the product is out of
    stock ([count <= 0]) or not enabled; otherwise the product's quantity
    (under the key [str(obj.id)]) goes up by exactly 1, starting from 1 when
    the product was not in the cart, and every other entry, in particular the
    entry of every other product, is unchanged. *)
Theorem add_to_cart_spec (cart : Cart) (obj : Z * Product.t) :
  (Product.count obj.2 ≤ 0 ∨ Product.enabled obj.2 = false →
     add_to_cart cart obj = cart) ∧
  (Product.count obj.2 > 0 → Product.enabled obj.2 = true →
     dict_lookup (str obj.1) (add_to_cart cart obj)
       = Some (dict_get (str obj.1) 0 cart + 1) ∧
     (dict_lookup (str obj.1) cart = None →
        dict_lookup (str obj.1) (add_to_cart cart obj) = Some 1) ∧
     (∀ k, k ≠ str obj.1 →
        dict_lookup k (add_to_cart cart obj) = dict_lookup k cart) ∧
     (∀ id, id ≠ obj.1 →
        dict_lookup (str id) (add_to_cart cart obj) = dict_lookup (str id) cart)).
Proof.
  unfold add_to_cart. split.
  - intros [Hc|He].
    + rewrite bool_decide_eq_false_2; [done | lia].
    + rewrite He. by rewrite andb_false_r.
  - intros Hc He. rewrite He, bool_decide_eq_true_2 by done. simpl.
    split_and!.
    + apply dict_lookup_setitem_eq.
    + intros Hnone. rewrite dict_lookup_setitem_eq.
      unfold dict_get. by rewrite Hnone.
    + intros k Hk. by apply dict_lookup_setitem_ne.
    + intros id Hid. apply dict_lookup_setitem_ne.
      unfold str. intros Heq. by apply (inj pretty) in Heq.
Qed.

Lemma add_to_cart_spec_witness :
  dict_lookup "5" (add_to_cart [("5", 2); ("8", 1)] (5, pen)) = Some 3 ∧
  dict_lookup "8" (add_to_cart [("5", 2); ("8", 1)] (5, pen)) = Some 1.
Proof.
  destruct (add_to_cart_spec [("5", 2); ("8", 1)] (5, pen)) as [_ H].
  destruct H as (H1 & _ & H2 & _); [reflexivity | reflexivity |].
  split; [exact H1 | exact (H2 "8" ltac:(discriminate))].
Defined.

(** ** Pricing *)

Lemma isdigit_int (s : string) : isdigit s = true → int s = Ok (digits_value 0 s).
Proof.
  destruct s as [|c s]; [done|]. intros Hd. unfold int. rewrite Hd.
  simpl in Hd. apply andb_prop in Hd as [Hc _].
  destruct (decide (c = "-"%char)) as [->|?]; [done|].
  destruct (decide (c = "+"%char)) as [->|?]; [done|].
  destruct c as [[] [] [] [] [] [] [] []]; done.
Qed.

Lemma cart_product_ids_digits (cart : Cart) :
  cart_product_ids cart =
    Ok (digits_value 0 <$> List.filter isdigit (dict_keys cart)).
Proof.
  unfold cart_product_ids.
  induction (dict_keys cart) as [|k ks IH]; [done|]. simpl.
  destruct (isdigit k) eqn:Hk; [|done]. simpl.
  rewrite (isdigit_int k Hk). simpl.
  unfold mbind, result_mbind in *. simpl. by rewrite IH.
Qed.

(** The queryset filtered by the cart's ids answers like the whole table at
    the id of every key of the cart that is a digit string. *)
Lemma filtered_lookup_cart_key (table : gmap Z Product.t) (cart : Cart) k :
  k ∈ dict_keys cart → isdigit k = true →
  Product_objects_filter_id_in
    (digits_value 0 <$> List.filter isdigit (dict_keys cart)) table
    !! digits_value 0 k = table !! digits_value 0 k.
Proof.
  intros Hin Hk. unfold Product_objects_filter_id_in.
  destruct (table !! digits_value 0 k) as [p|] eqn:Hp.
  - apply map_lookup_filter_Some. split; [done|]. simpl.
    apply list_elem_of_fmap. exists k. split; [done|].
    apply list_elem_of_In, filter_In. split; [by apply list_elem_of_In | done].
  - apply map_lookup_filter_None. by left.
Qed.

Lemma prepare_cart_lines_spec (table filtered : gmap Z Product.t)
    (lines : Cart) (cart_items : list CartItem.t) (subtotal : Z) :
  Forall (λ line, isdigit line.1 = true ∧
                  filtered !! digits_value 0 line.1 = table !! digits_value 0 line.1)
         lines →
  prepare_cart_lines filtered lines cart_items subtotal =
    Ok (cart_items ++ omap (priced_line table) lines,
        subtotal +
          foldr Z.add 0
            ((λ it, Product.price (CartItem.product it).2 * CartItem.count it)
               <$> omap (priced_line table) lines)).
Proof.
  intros H. revert cart_items subtotal.
  induction H as [|[k c] lines [Hk Hl] _ IH]; intros cart_items subtotal; simpl.
  - by rewrite app_nil_r, Z.add_0_r.
  - simpl in Hk, Hl.
    assert (priced_line table (k, c) =
              (λ p, CartItem.mk (digits_value 0 k, p) c (inject_Z (Product.price p))
                      (Product.discount p)
                      (inject_Z (Product.price p * c)
                       * (1 - Product.discount p / 100))%Q)
                <$> table !! digits_value 0 k) as Hpl.
    { unfold priced_line. simpl. rewrite (isdigit_int k Hk).
      by destruct (table !! digits_value 0 k). }
    rewrite Hpl, (isdigit_int k Hk). unfold objects_get. rewrite Hl.
    destruct (table !! digits_value 0 k) as [p|]; simpl.
    + rewrite IH. simpl. rewrite <- app_assoc. simpl. f_equal. f_equal.
      symmetry. apply Z.add_assoc.
    + apply IH.
Qed.

Lemma foldl_Qplus (l : list Q) (a : Q) : (foldl Qplus a l == a + Qsum l)%Q.
Proof.
  revert a. induction l as [|x l IH]; intros a; simpl.
  - ring.
  - rewrite IH. ring.
Qed.

Lemma Qsum_nonneg (l : list Q) : Forall (λ x, 0 <= x)%Q l → (0 <= Qsum l)%Q.
Proof.
  induction 1 as [|x l Hx _ IH]; simpl; [apply Qle_refl|].
  replace 0%Q with (0 + 0)%Q by reflexivity. by apply Qplus_le_compat.
Qed.

Lemma inject_Z_foldr_add (l : list Z) :
  (inject_Z (foldr Z.add 0%Z l) == Qsum (inject_Z <$> l))%Q.
Proof.
  induction l as [|x l IH]; simpl; [reflexivity|].
  rewrite inject_Z_plus, IH. reflexivity.
Qed.

Lemma priced_line_total (table : gmap Z Product.t) line it :
  priced_line table line = Some it →
  (CartItem.total it ==
     line_amount it * (1 - CartItem.discount it / 100))%Q ∧
  CartItem.discount it = Product.discount (CartItem.product it).2 ∧
  CartItem.price it = inject_Z (Product.price (CartItem.product it).2) ∧
  CartItem.count it = line.2 ∧
  int line.1 = Ok (CartItem.product it).1 ∧
  table !! (CartItem.product it).1 = Some (CartItem.product it).2.
Proof.
  unfold priced_line, line_amount.
  destruct (int line.1) as [id|]; [|done].
  destruct (table !! id) as [p|] eqn:Hp; [|done].
  intros [= <-]. simpl. split_and!; try done;
    rewrite inject_Z_mult; reflexivity.
Qed.

Lemma line_total_nonneg (it : CartItem.t) :
  (CartItem.total it == line_amount it * (1 - CartItem.discount it / 100))%Q →
  0 ≤ Product.price (CartItem.product it).2 → 0 ≤ CartItem.count it →
  (CartItem.discount it <= 100)%Q →
  (0 <= CartItem.total it)%Q.
Proof.
  intros -> Hp Hc Hd. unfold line_amount.
  apply Qmult_le_0_compat.
  - apply Qmult_le_0_compat; (replace 0%Q with (inject_Z 0) by done);
      by rewrite <- Zle_Qle.
  - assert (CartItem.discount it / 100 <= 1)%Q; [|lra].
    apply Qle_shift_div_r; [done | lra].
Qed.

(** C9 (amended).  For every cart whose keys are product ids written in
    decimal, [prepare_cart_data] prices exactly the lines whose product
    exists, with [line_total = price * count * (1 - discount/100)],
    [subtotal = Σ price*count], [discount_total = subtotal - Σ line_total],
    [vat_amount = (subtotal - discount_total) * 9/100] and
    [grand_total = (subtotal - discount_total) + vat_amount]; the grand total
    is non-negative when every priced line has a non-negative price and
    count and a discount of at most 100.  In scenario A (cart [{"5": 2}],
    price 100, discount 10) the line total is 180, the subtotal 200, the
    discount total 20, the VAT 16.2 and the grand total 196.2. *)
Theorem prepare_cart_data_pricing :
  (∀ (table : gmap Z Product.t) (cart : Cart),
     Forall (λ line, isdigit line.1 = true) cart →
     ∃ subtotal discount_total vat_amount total : Q,
       let cart_items := omap (priced_line table) cart in
       prepare_cart_data table cart
         = Ok (cart_items, subtotal, discount_total, vat_amount, total) ∧
       Forall (λ it, CartItem.total it
                       == line_amount it * (1 - CartItem.discount it / 100))%Q
              cart_items ∧
       (subtotal == Qsum (line_amount <$> cart_items))%Q ∧
       (discount_total == subtotal - Qsum (CartItem.total <$> cart_items))%Q ∧
       (vat_amount == (subtotal - discount_total) * 9 / 100)%Q ∧
       (total == (subtotal - discount_total) + vat_amount)%Q ∧
       (Forall (λ it, 0 ≤ Product.price (CartItem.product it).2 ∧
                      0 ≤ CartItem.count it ∧
                      (CartItem.discount it <= 100)%Q) cart_items →
        (0 <= total)%Q)) ∧
  (∃ (item : CartItem.t) (subtotal discount_total vat_amount total : Q),
     prepare_cart_data scenario_A_products scenario_A_cart
       = Ok ([item], subtotal, discount_total, vat_amount, total) ∧
     (CartItem.total item == 180)%Q ∧ (subtotal == 200)%Q ∧
     (discount_total == 20)%Q ∧ (vat_amount == 162 / 10)%Q ∧
     (total == 1962 / 10)%Q).
Proof.
  split.
  - intros table cart Hd.
    set (cart_items := omap (priced_line table) cart).
    set (subtotal :=
           foldr Z.add 0
             ((λ it, Product.price (CartItem.product it).2 * CartItem.count it)
                <$> cart_items)).
    set (discount_total :=
           (inject_Z subtotal - foldl Qplus 0 (CartItem.total <$> cart_items))%Q).
    set (vat_amount := ((inject_Z subtotal - discount_total) * 9 / 100)%Q).
    exists (inject_Z subtotal), discount_total, vat_amount,
      ((inject_Z subtotal - discount_total) + vat_amount)%Q.
    assert (Forall (λ it, CartItem.total it
                       == line_amount it * (1 - CartItem.discount it / 100))%Q
              cart_items) as Htot.
    { apply Forall_forall. intros it Hit.
      apply list_elem_of_omap in Hit as (line & _ & Hline).
      by apply priced_line_total in Hline as [? _]. }
    assert (Qsum (CartItem.total <$> cart_items) ==
              inject_Z subtotal - discount_total)%Q as Hsum.
    { unfold discount_total. rewrite foldl_Qplus. ring. }
    split_and!.
    + unfold prepare_cart_data. rewrite cart_product_ids_digits. simpl.
      unfold mbind, result_mbind. simpl.
      rewrite (prepare_cart_lines_spec table); [done|].
      apply Forall_forall. intros [k c] Hin. simpl.
      rewrite Forall_forall in Hd. pose proof (Hd _ Hin) as Hk. simpl in Hk.
      split; [done|]. apply filtered_lookup_cart_key; [|done].
      apply list_elem_of_fmap. by exists (k, c).
    + done.
    + unfold subtotal. rewrite inject_Z_foldr_add, <- list_fmap_compose.
      clear. induction cart_items as [|it l IH]; simpl; [reflexivity|].
      rewrite IH. unfold line_amount at 2. rewrite inject_Z_mult. reflexivity.
    + unfold discount_total. rewrite foldl_Qplus. ring.
    + reflexivity.
    + reflexivity.
    + intros Hnn.
      assert (0 <= Qsum (CartItem.total <$> cart_items))%Q as H0.
      { apply Qsum_nonneg, Forall_fmap.
        rewrite Forall_forall in Htot, Hnn |- *. intros it Hit.
        destruct (Hnn it Hit) as (? & ? & ?).
        by apply line_total_nonneg; [apply Htot|..]. }
      rewrite Hsum in H0. unfold vat_amount.
      set (x := (inject_Z subtotal - discount_total)%Q) in *.
      assert (x * 9 / 100 == x * (9 # 100))%Q as -> by field. lra.
  - eexists _, _, _, _, _. split; [vm_compute; reflexivity|].
    by vm_compute.
Qed.

Lemma prepare_cart_data_pricing_witness :
  ∃ subtotal discount_total vat_amount total : Q,
    prepare_cart_data scenario_A_products scenario_A_cart
      = Ok (omap (priced_line scenario_A_products) scenario_A_cart,
            subtotal, discount_total, vat_amount, total) ∧
    (0 <= total)%Q.
Proof.
  destruct prepare_cart_data_pricing as [H _].
  destruct (H scenario_A_products scenario_A_cart) as
    (subtotal & discount_total & vat_amount & total & Hrun & _ & _ & _ & _ & _ & Hnn).
  { repeat constructor. }
  exists subtotal, discount_total, vat_amount, total. split; [exact Hrun|].
  apply Hnn. repeat constructor; vm_compute; congruence.
Defined.

(** C9, as stated, fails: a product with a discount above 100 percent (no
    view or model validates the range) gives a negative grand total. *)
Lemma grand_total_can_be_negative :
  ∃ (cart_items : list CartItem.t) (subtotal discount_total vat_amount total : Q),
    prepare_cart_data {[ 5 := overdiscounted ]} [("5", 1)]
      = Ok (cart_items, subtotal, discount_total, vat_amount, total) ∧
    (total == -109)%Q ∧ ¬ (0 <= total)%Q.
Proof.
  eexists _, _, _, _, _. split; [vm_compute; reflexivity|].
  split; by vm_compute.
Qed.

(** A cart line whose product does not exist adds nothing to the cart
    total: the total is that of the cart without the line. *)
Lemma add_line_price_missing (product_map : gmap Z Product.t) total k n :
  isdigit k = true → product_map !! digits_value 0 k = None →
  add_line_price product_map total (k, n) = total.
Proof.
  intros Hk Hnone. unfold add_line_price. simpl.
  by rewrite (isdigit_int k Hk), Hnone.
Qed.

Lemma add_line_price_empty total line : add_line_price ∅ total line = total.
Proof.
  unfold add_line_price. destruct (int line.1); [|done]. by rewrite lookup_empty.
Qed.

Lemma filter_id_in_missing (table : gmap Z Product.t) ids1 ids2 id :
  table !! id = None →
  Product_objects_filter_id_in (ids1 ++ id :: ids2) table =
    Product_objects_filter_id_in (ids1 ++ ids2) table.
Proof.
  intros Hnone. unfold Product_objects_filter_id_in.
  apply map_filter_strong_ext. intros i p. simpl.
  split; intros [Hin Hp]; (split; [|done]).
  - apply elem_of_app in Hin as [?|Hin]; [by apply elem_of_app; left|].
    apply elem_of_cons in Hin as [->|?]; [congruence|]. by apply elem_of_app; right.
  - apply elem_of_app in Hin as [?|?]; apply elem_of_app; [by left|].
    right. by right.
Qed.

Lemma get_cart_total_price_drops_missing (table : gmap Z Product.t)
    (lines1 lines2 : Cart) k n :
  isdigit k = true → table !! digits_value 0 k = None →
  get_cart_total_price table (lines1 ++ (k, n) :: lines2) =
    get_cart_total_price table (lines1 ++ lines2).
Proof.
  intros Hk Hnone. unfold get_cart_total_price.
  rewrite !cart_product_ids_digits. unfold dict_keys.
  rewrite !fmap_app, fmap_cons, !List.filter_app. simpl. rewrite Hk.
  rewrite !fmap_app, fmap_cons.
  set (ids1 := digits_value 0 <$> List.filter isdigit lines1.*1).
  set (ids2 := digits_value 0 <$> List.filter isdigit lines2.*1).
  rewrite (filter_id_in_missing table ids1 ids2 _ Hnone).
  set (product_map := Product_objects_filter_id_in (ids1 ++ ids2) table).
  assert (product_map !! digits_value 0 k = None) as Hpm.
  { apply map_lookup_filter_None. by left. }
  assert (∀ total,
            foldl (add_line_price product_map) total (lines1 ++ (k, n) :: lines2) =
            foldl (add_line_price product_map) total (lines1 ++ lines2)) as Hfold.
  { intros total. rewrite !foldl_app. simpl.
    by rewrite (add_line_price_missing product_map _ k n Hk Hpm). }
  assert (ids1 ++ ids2 = [] →
          ∀ lines total, foldl (add_line_price product_map) total lines = total)
    as Hnil.
  { intros Hids. assert (product_map = ∅) as ->.
    { unfold product_map, Product_objects_filter_id_in. rewrite Hids.
      apply map_eq. intros i. rewrite lookup_empty.
      apply map_lookup_filter_None. right. intros p _ Hin. simpl in Hin.
      by apply elem_of_nil in Hin. }
    intros lines. induction lines as [|line lines IH]; intros total; [done|].
    simpl. by rewrite add_line_price_empty. }
  destruct (lines1 ++ (k, n) :: lines2) as [|l0 ls0] eqn:Hcart.
  { by destruct lines1. }
  destruct (ids1 ++ digits_value 0 k :: ids2) as [|i0 is0] eqn:Hids0.
  { by destruct ids1. }
  destruct (ids1 ++ ids2) as [|i1 is1] eqn:Hids.
  - rewrite Hnil by done.
    replace (match lines1 ++ lines2 with [] => 0%Q | _ :: _ => 0%Q end) with 0%Q
      by (by destruct (lines1 ++ lines2)).
    by vm_compute.
  - destruct (lines1 ++ lines2) as [|l1 ls1] eqn:Hrest.
    + apply app_eq_nil in Hrest as [-> ->]. done.
    + by rewrite Hfold.
Qed.

(** ** The database *)

Section orm_facts.
Context {R : Type}.
Implicit Types (table : gmap Z R) (r : R) (k : Z).

Lemma next_pk_above table k : is_Some (table !! k) → k < next_pk table.
Proof.
  unfold next_pk.
  cut (k ≤ map_fold (λ k _ acc, Z.max k acc) 0 table ∨ table !! k = None).
  { intros [?|Hn] [r Hr]; [lia | congruence]. }
  apply (map_fold_weak_ind (λ acc m, k ≤ acc ∨ m !! k = None)).
  - right. apply lookup_empty.
  - intros i x m acc _ [Hle|Hn].
    + left. lia.
    + destruct (decide (i = k)) as [->|Hne]; [left; lia|].
      right. by rewrite lookup_insert_ne.
Qed.

(** The key of a new row is not in use: an insertion overwrites nothing. *)
Lemma next_pk_fresh table : table !! next_pk table = None.
Proof.
  destruct (table !! next_pk table) eqn:H; [|done].
  assert (next_pk table < next_pk table); [|lia].
  apply next_pk_above. by eexists.
Qed.

Lemma next_pk_positive table : 0 < next_pk table.
Proof.
  unfold next_pk.
  cut (0 ≤ map_fold (λ k (_ : R) acc, Z.max k acc) 0 table); [lia|].
  apply (map_fold_weak_ind (λ acc _, 0 ≤ acc)); [done|]. intros. lia.
Qed.

Lemma lookup_objects_create table r k :
  (objects_create r table).2 !! k =
    if decide (k = next_pk table) then Some r else table !! k.
Proof.
  unfold objects_create. simpl. destruct (decide _) as [->|?].
  - apply lookup_insert_eq.
  - by apply lookup_insert_ne.
Qed.

Lemma lookup_objects_create_old table r k x :
  table !! k = Some x → (objects_create r table).2 !! k = Some x.
Proof.
  intros Hk. rewrite lookup_objects_create. destruct (decide _) as [->|?]; [|done].
  by rewrite next_pk_fresh in Hk.
Qed.


Lemma bulk_create_old (rows : list R) table k x :
  table !! k = Some x → bulk_create rows table !! k = Some x.
Proof.
  revert table. induction rows as [|r rows IH]; intros table Hk; [done|].
  unfold bulk_create in *. simpl. apply IH.
  by apply (lookup_objects_create_old table r).
Qed.

End orm_facts.



(** *** The lookup of the pending payment *)

Lemma Payment_objects_get_Ok a s (table : gmap Z Payment.t) pk p :
  Payment_objects_get a s table = Ok (pk, p) ↔
  table !! pk = Some p ∧ Payment.authority p = a ∧ Payment.status p = s ∧
  ∀ pk' p', table !! pk' = Some p' →
            Payment.authority p' = a → Payment.status p' = s → pk' = pk.
Proof.
  unfold Payment_objects_get.
  set (found := filter _ table). split.
  - destruct (map_to_list found) as [|[pk0 p0] [|??]] eqn:Hl; try done.
    intros [= -> ->].
    assert (found = {[ pk := p ]}) as Hf.
    { rewrite <- (list_to_map_to_list found), Hl. simpl. by rewrite insert_empty. }
    assert (found !! pk = Some p) as Hpk by (by rewrite Hf, lookup_singleton_eq).
    apply map_lookup_filter_Some in Hpk as (Hpk & Ha & Hs). simpl in *.
    split_and!; try done.
    intros pk' p' Hl' Ha' Hs'.
    assert (found !! pk' = Some p') as Hin by by apply map_lookup_filter_Some.
    rewrite Hf in Hin. by apply lookup_singleton_Some in Hin as [-> _].
  - intros (Hpk & Ha & Hs & Huniq).
    assert (found = {[ pk := p ]}) as ->.
    { apply map_eq. intros k. destruct (decide (k = pk)) as [->|Hne].
      - rewrite lookup_singleton_eq. by apply map_lookup_filter_Some.
      - rewrite lookup_singleton_ne by done.
        apply map_lookup_filter_None. right. intros p' Hp' [Ha' Hs']. simpl in *.
        by apply Hne, (Huniq k p'). }
    by rewrite map_to_list_singleton.
Qed.

Lemma Payment_objects_get_DoesNotExist a s (table : gmap Z Payment.t) :
  Payment_objects_get a s table = Raise DoesNotExist ↔
  ∀ pk p, table !! pk = Some p → ¬ (Payment.authority p = a ∧ Payment.status p = s).
Proof.
  unfold Payment_objects_get.
  set (found := filter _ table). split.
  - destruct (map_to_list found) as [|[pk0 p0] [|??]] eqn:Hl; try done.
    intros _ pk p Hpk Hm. apply map_to_list_empty_iff in Hl.
    assert (found !! pk = Some p) as Hin by by apply map_lookup_filter_Some.
    by rewrite Hl, lookup_empty in Hin.
  - intros Hnone.
    assert (found = ∅) as ->; [|by rewrite map_to_list_empty].
    apply map_eq. intros k. rewrite lookup_empty.
    apply map_lookup_filter_None. right. intros p Hp. by apply (Hnone k p).
Qed.


(** ** Checkout *)

Ltac view_unfold :=
  unfold mbind, mret, View_bind, View_ret, result_mbind, result_ret, result_bind,
    lift, raise, get_db, put_db, get_session_cart, set_session_cart,
    try_except, try_or_return, requests_post,
    Payment_create, Payment_save, Invoice_create, Invoice_save, Product_save,
    InvoiceItem_bulk_create in *.

(** Whatever the gateway answers, [CheckoutCartView.post] sends it one
    request and saves one new payment: pending with the authority when the
    answer carries code 100 and an authority, and in error otherwise. *)
Lemma request_payment_spec gateway (payment : Payment.t) (request_data : json) w :
  ∃ response p,
    request_payment gateway payment request_data w =
      (Ok response,
       mkWorld
         (set_payments (<[next_pk (payments (db w)) := p]> (payments (db w))) (db w))
         (session_cart w)
         (mkGatewayRequest ZARINPAL_REQUEST_URL request_data :: outbox w)) ∧
    Payment.invoice p = Payment.invoice payment ∧
    Payment.total p = Payment.total payment ∧
    ((Payment.status p = Payment.status payment ∧
      response = redirect (ZARINPAL_START_PAY_URL +:+ Payment.authority p)) ∨
     (Payment.status p = Payment.STATUS_ERROR ∧
      ∃ context, response = render "core/checkout_error.html" context)).
Proof.
  unfold request_payment. view_unfold. simpl.
  destruct (gateway _) as [response_data|e]; simpl.
  - destruct (json_get "data" _ response_data) as [data|e]; simpl.
    + destruct (json_get "code" _ data) as [code|e]; simpl.
      * destruct (json_eq_int code 100); simpl.
        -- destruct (json_getitem "data" response_data) as [data'|e]; simpl.
           ++ destruct (json_getitem "authority" data') as [authority|e]; simpl.
              ** eexists _, _. split; [reflexivity|]. simpl. auto.
              ** eexists _, _. split; [reflexivity|]. simpl. eauto 6.
           ++ eexists _, _. split; [reflexivity|]. simpl. eauto 6.
        -- destruct (json_get "errors" _ response_data) as [errors|e]; simpl.
           ++ destruct (json_get "code" _ errors) as [error_code|e]; simpl.
              ** destruct (json_get "message" _ errors) as [error_message|e]; simpl;
                   eexists _, _; (split; [reflexivity|]); simpl; eauto 6.
              ** eexists _, _. split; [reflexivity|]. simpl. eauto 6.
           ++ eexists _, _. split; [reflexivity|]. simpl. eauto 6.
      * eexists _, _. split; [reflexivity|]. simpl. eauto 6.
    + eexists _, _. split; [reflexivity|]. simpl. eauto 6.
  - eexists _, _. split; [reflexivity|]. simpl. eauto 6.
Qed.


(** The first cart line whose product does not exist stops the loop with
    [Product.DoesNotExist]. *)
Lemma build_invoice_items_missing (filtered : gmap Z Product.t) (invoice : Z)
    (lines1 lines2 : Cart) k c (invoice_item : list InvoiceItem.t) :
  Forall (λ line, isdigit line.1 = true ∧
                  is_Some (filtered !! digits_value 0 line.1)) lines1 →
  isdigit k = true → filtered !! digits_value 0 k = None →
  build_invoice_items filtered invoice (lines1 ++ (k, c) :: lines2) invoice_item =
    Raise DoesNotExist.
Proof.
  intros H Hk Hnone. revert invoice_item.
  induction H as [|[k1 c1] lines1 (Hk1 & [p Hp]) _ IH]; intros invoice_item; simpl.
  - rewrite (isdigit_int k Hk).
    unfold mbind, result_mbind, result_bind, objects_get. by rewrite Hnone.
  - simpl in Hk1, Hp. rewrite (isdigit_int k1 Hk1).
    unfold mbind, result_mbind, result_bind, objects_get. rewrite Hp. apply IH.
Qed.






(** A valid submission, step by step: the invoice is saved, then the items
    are built and saved, then the gateway is asked and the payment saved. *)
Lemma CheckoutCartView_post_steps gateway request w user_id email :
  user request = Some (user_id, email) →
  InvoiceForm.is_valid (InvoiceForm.bind (POST request)) = true →
  let form := InvoiceForm.bind (POST request) in
  let cart := get_cart (session_cart w) in
  let invoice_id := next_pk (invoices (db w)) in
  let invoice :=
    Invoice.mk None user_id (get_cart_total_price (products (db w)) cart) 0
      (InvoiceForm.description form) (default "" (InvoiceForm.address form)) 9 in
  let items :=
    Product_objects_filter_id_in
      (digits_value 0 <$> List.filter isdigit (dict_keys cart)) (products (db w)) in
  let saved := set_invoices (<[invoice_id := invoice]> (invoices (db w))) (db w) in
  CheckoutCartView_post gateway request w =
    match build_invoice_items items invoice_id cart [] with
    | Raise e => (Raise e, mkWorld saved (session_cart w) (outbox w))
    | Ok rows =>
        request_payment gateway
          (new_payment (invoice_id, invoice) (get_user_ip request))
          (JObj [("merchant_id", JStr ZARINPAL_MERCHANT_ID);
                 ("amount",
                  JNum (int_of_float
                          (Payment.total (new_payment (invoice_id, invoice) None))));
                 ("currency", JStr "IRT");
                 ("description", JStr ("invoice, No. " +:+ str invoice_id));
                 ("callback_url",
                  JStr (build_absolute_uri request (reverse "core:verify")));
                 ("metadata", JObj [("email", JStr email)])])
          (mkWorld
             (set_invoice_items (bulk_create rows (invoice_items (db w))) saved)
             (session_cart w) (outbox w))
    end.
Proof.
  intros Huser Hvalid form cart invoice_id invoice items saved.
  unfold CheckoutCartView_post. rewrite Huser, Hvalid.
  fold form cart.
  unfold mbind at 1, View_bind at 1, get_session_cart.
  unfold mbind at 1, View_bind at 1, get_db.
  unfold mbind at 1, View_bind at 1, Invoice_create.
  unfold mbind at 1, View_bind at 1, get_db, objects_create.
  unfold mbind at 1, View_bind at 1, put_db. simpl.
  unfold mbind at 1, View_bind at 1, lift.
  rewrite cart_product_ids_digits. fold cart. simpl.
  unfold mbind at 1, View_bind at 1.
  fold invoice_id invoice items.
  destruct (build_invoice_items items invoice_id cart []) as [rows|e]; [|reflexivity].
  unfold mbind at 1, View_bind at 1, InvoiceItem_bulk_create.
  unfold mbind at 1, View_bind at 1, get_db, put_db. reflexivity.
Qed.








(** C6 (what the code does at the failing input).  With the cart
    [{"5": 2, "7": 1}] and no product 7, the cart total and the checkout
    page's pricing drop the line of product 7 and answer as for the cart
    [{"5": 2}], but [CheckoutCartView.post] raises [Product.DoesNotExist] on
    that line: the lookup in its loop has no [except] clause, unlike the
    loops of [get_cart_total_price] and [prepare_cart_data], which drop
    such a line of any cart. *)
Theorem checkout_post_raises_on_missing_product :
  let table := products shop_db in
  let cart := [("5", 2); ("7", 1)] in
  table !! 7 = None ∧
  get_cart_total_price table cart = get_cart_total_price table [("5", 2)] ∧
  prepare_cart_data table cart = prepare_cart_data table [("5", 2)] ∧
  (∃ r, prepare_cart_data table cart = Ok r) ∧
  (CheckoutCartView_post sandbox_gateway buyer_post (shop cart)).1
    = Raise DoesNotExist ∧
  (∃ response,
     (CheckoutCartView_post sandbox_gateway buyer_post (shop [("5", 2)])).1
       = Ok response).
Proof.
  split_and!; try (vm_compute; reflexivity).
  - eexists. vm_compute. reflexivity.
  - eexists. vm_compute. reflexivity.
Qed.

(** ** Verification *)

(** The stock loop takes, from every product, what the items order of it. *)
Lemma update_product_counts_spec (items : list (Z * InvoiceItem.t)) w :
  Forall (λ item, is_Some (products (db w) !! InvoiceItem.product item.2)) items →
  ∃ table,
    update_product_counts items w =
      (Ok tt, mkWorld (set_products table (db w)) (session_cart w) (outbox w)) ∧
    ∀ id, table !! id =
          (λ p, Product.with_count (Product.count p - ordered_count items id) p)
            <$> products (db w) !! id.
Proof.
  revert w. induction items as [|[k item] items IH]; intros w Hfk.
  - exists (products (db w)). split.
    + simpl. unfold mret, View_ret. by destruct w as [[] ? ?].
    + intros id. unfold ordered_count. simpl.
      destruct (products (db w) !! id) as [[]|]; simpl; [|done].
      unfold Product.with_count. simpl. do 2 f_equal. lia.
  - apply Forall_cons in Hfk as [[p Hp] Hfk]. simpl in Hp.
    simpl. view_unfold. unfold objects_get. simpl. rewrite Hp. simpl.
    set (w1 := mkWorld _ _ _).
    destruct (IH w1) as (table & -> & Htable).
    { eapply Forall_impl; [exact Hfk|]. intros [k' item'] [p' Hp']. simpl in *.
      destruct (decide (InvoiceItem.product item = InvoiceItem.product item'))
        as [<-|Hne].
      - rewrite lookup_insert_eq. by eexists.
      - rewrite lookup_insert_ne by done. by eexists. }
    exists table. split; [done|]. intros id. rewrite Htable. simpl.
    unfold ordered_count. simpl. rewrite filter_cons.
    destruct (decide (InvoiceItem.product item = id)) as [<-|Hne].
    + rewrite lookup_insert_eq, Hp. simpl. unfold Product.with_count. simpl.
      do 2 f_equal. symmetry. apply Z.sub_add_distr.
    + by rewrite lookup_insert_ne.
Qed.

(** [VerifyView.get] once the lookup has found the pending payment. *)
Lemma VerifyView_get_found gateway request w authority payment :
  dict_lookup "Authority" (GET request) = Some authority → authority ≠ "" →
  Payment_objects_get authority Payment.STATUS_PENDING (payments (db w))
    = Ok payment →
  VerifyView_get gateway request w =
    if bool_decide (dict_lookup "Status" (GET request) = Some "OK") then
      let w1 := mkWorld (db w) (session_cart w)
                  (verify_request authority payment.2 :: outbox w) in
      match gateway (verify_request authority payment.2) with
      | Ok verify_result => check_verification_result payment verify_result w1
      | Raise RequestException => (Ok (payment_failed "Network error!"), w1)
      | Raise e => (Raise e, w1)
      end
    else
      (Ok (payment_failed "Payment was canceled by the user."),
       mkWorld
         (set_payments
            (<[payment.1 := Payment.with_status Payment.STATUS_ERROR payment.2]>
               (payments (db w))) (db w))
         (session_cart w) (outbox w)).
Proof.
  intros Ha Hne Hget. unfold VerifyView_get. rewrite Ha.
  destruct authority as [|c authority]; [done|].
  view_unfold. simpl. rewrite Hget.
  destruct (bool_decide _); simpl; [|done].
  unfold verify_request.
  destruct (gateway _) as [verify_result|[]]; done.
Qed.

Lemma VerifyView_get_not_found gateway request w authority :
  dict_lookup "Authority" (GET request) = Some authority →
  Payment_objects_get authority Payment.STATUS_PENDING (payments (db w))
    = Raise DoesNotExist →
  VerifyView_get gateway request w =
    (Ok (payment_failed (if bool_decide (authority = "")
                         then "Payment was cancelled!"
                         else "There is no payment document!")), w).
Proof.
  intros Ha Hget. unfold VerifyView_get. rewrite Ha.
  destruct authority as [|c authority]; [done|].
  view_unfold. simpl. by rewrite Hget.
Qed.

(** A verify response with the success code and a reference. *)
Lemma verified_ref_id_Some verify_result ref_id :
  verified_ref_id verify_result = Some ref_id →
  ∃ data code,
    json_get "data" JNull verify_result = Ok data ∧
    json_get "code" JNull data = Ok code ∧
    json_eq_int code 100 = true ∧
    json_getitem "data" verify_result = Ok data ∧
    json_getitem "ref_id" data = Ok ref_id.
Proof.
  unfold verified_ref_id. destruct verify_result as [| | | | | |o]; try done.
  destruct (dict_lookup "data" o) as [[| | | | | |data]|] eqn:Hdata; try done.
  destruct (dict_lookup "code" data) as [code|] eqn:Hcode; [|done].
  destruct (json_eq_int code 100) eqn:Heq; [|done]. intros Href.
  exists (JObj data), code. simpl.
  unfold dict_get, dict_getitem. by rewrite Hdata, Hcode, Href.
Qed.

(** Settlement: what the success branch does to the world. *)
Lemma check_verification_result_success payment verify_result ref_id invoice w :
  verified_ref_id verify_result = Some ref_id →
  invoices (db w) !! Payment.invoice payment.2 = Some invoice →
  items_have_product (db w) = true →
  let items :=
    InvoiceItem_objects_filter_invoice (Payment.invoice payment.2)
      (invoice_items (db w)) in
  let number :=
    match Invoice.number invoice with
    | None => Some (default 0 (Invoice_objects_aggregate_Max_number (invoices (db w))) + 1)
    | Some n => Some n
    end in
  ∃ table,
    check_verification_result payment verify_result w =
      (Ok (render "core/payment_success.html"
             [("ref_id", CJson ref_id);
              ("amount", CInt (int_of_float (Payment.total payment.2)))]),
       mkWorld
         (mkDB table
            (<[Payment.invoice payment.2 := Invoice.with_number number invoice]>
               (invoices (db w)))
            (invoice_items (db w))
            (<[payment.1 :=
                 Payment.with_status Payment.STATUS_DONE
                   (Payment.with_ref (Some (json_str ref_id)) payment.2)]>
               (payments (db w))))
         (Some []) (outbox w)) ∧
    ∀ id, table !! id =
          (λ p, Product.with_count (Product.count p - ordered_count items id) p)
            <$> products (db w) !! id.
Proof.
  intros Hok Hinvoice Hfk items number.
  apply verified_ref_id_Some in Hok
    as (data & code & Hdata & Hcode & Hsuccess & Hdata' & Href).
  unfold check_verification_result.
  unfold mbind at 1, View_bind at 1, lift. rewrite Hdata.
  unfold mbind at 1, View_bind at 1. rewrite Hcode, Hsuccess.
  unfold mbind at 1, View_bind at 1. rewrite Hdata'.
  unfold mbind at 1, View_bind at 1. rewrite Href.
  unfold mbind at 1, View_bind at 1, Payment_save.
  unfold mbind at 1, View_bind at 1, get_db, put_db. simpl.
  unfold mbind at 1, View_bind at 1.
  unfold mbind at 1, View_bind at 1, objects_get. simpl. rewrite Hinvoice.
  set (w1 := mkWorld _ _ _).
  destruct (update_product_counts_spec items w1) as (table & Hloop & Htable).
  { apply bool_decide_eq_true_1 in Hfk. apply Forall_forall. intros [k item] Hin.
    apply elem_of_map_to_list, map_lookup_filter_Some in Hin as [Hin _].
    apply (Hfk k item Hin). }
  exists table. split; [|exact Htable].
  unfold mbind at 1, View_bind at 1. unfold number. cbn [fst snd].
  destruct (Invoice.number invoice) as [n|] eqn:Hn; cbn [fst snd];
    fold items; rewrite Hloop; view_unfold; simpl; rewrite ?Hn; [|done].
  unfold set_invoices, set_products, set_payments. simpl. do 4 f_equal.
  unfold Invoice.with_number. rewrite <- Hn. by destruct invoice.
Qed.





(** The stock loop writes products only, also when it stops on an exception. *)
Lemma update_product_counts_frame (items : list (Z * InvoiceItem.t)) w :
  let result := update_product_counts items w in
  invoices (db result.2) = invoices (db w) ∧
  invoice_items (db result.2) = invoice_items (db w) ∧
  payments (db result.2) = payments (db w) ∧
  session_cart result.2 = session_cart w ∧
  outbox result.2 = outbox w ∧
  ∀ id, is_Some (products (db result.2) !! id) ↔ is_Some (products (db w) !! id).
Proof.
  revert w. induction items as [|[k item] items IH]; intros w; [done|].
  simpl. view_unfold. unfold objects_get. simpl.
  destruct (products (db w) !! InvoiceItem.product item) as [product|] eqn:Hp;
    [|done]. simpl.
  set (w1 := mkWorld _ _ _). destruct (IH w1) as (-> & -> & -> & -> & -> & Hdom).
  assert (∀ id, is_Some (products (db w1) !! id) ↔ is_Some (products (db w) !! id))
    as Hdom1.
  { intros id. simpl. rewrite lookup_insert_is_Some'.
    split; [|by right]. intros [<-|?]; [by eexists|done]. }
  destruct (update_product_counts items w1) as [[] w2]; simpl in *;
    (split; [done|]); (split; [done|]); (split; [done|]); (split; [done|]);
    (split; [done|]); intros id; by rewrite Hdom, Hdom1.
Qed.

(** The stock loop stops on an exception only at an item whose product is
    missing. *)
Lemma update_product_counts_raises (items : list (Z * InvoiceItem.t)) w e :
  (update_product_counts items w).1 = Raise e →
  ∃ item, item ∈ items ∧ products (db w) !! InvoiceItem.product item.2 = None.
Proof.
  intros Hraise.
  destruct (decide (Forall (λ item : Z * InvoiceItem.t,
                              is_Some (products (db w) !! InvoiceItem.product item.2))
                           items)) as [Hall|Hnot].
  - destruct (update_product_counts_spec items w Hall) as (table & Hrun & _).
    by rewrite Hrun in Hraise.
  - apply not_Forall_Exists in Hnot; [|apply _].
    apply Exists_exists in Hnot as (item & Hin & Hnone). exists item.
    split; [done|]. by apply eq_None_not_Some.
Qed.

(** Every way [VerifyView.get] can go once the gateway has answered: an
    exception before anything is saved; the payment marked in error; or the
    payment marked done, after which either an exception leaves the invoice
    as it was, or the invoice is saved with its number and the cart
    emptied. *)
Lemma check_verification_result_cases payment verify_result w :
  let result := check_verification_result payment verify_result w in
  (∃ e, result = (Raise e, w)) ∨
  result =
    (Ok (payment_failed "Payment not verified!!"),
     mkWorld
       (set_payments
          (<[payment.1 := Payment.with_status Payment.STATUS_ERROR payment.2]>
             (payments (db w))) (db w))
       (session_cart w) (outbox w)) ∨
  (∃ ref_id,
     verified_ref_id verify_result = Some ref_id ∧
     payments (db result.2) =
       <[payment.1 := Payment.with_status Payment.STATUS_DONE
                        (Payment.with_ref (Some (json_str ref_id)) payment.2)]>
         (payments (db w)) ∧
     invoice_items (db result.2) = invoice_items (db w) ∧
     outbox result.2 = outbox w ∧
     (∀ id, is_Some (products (db result.2) !! id) ↔ is_Some (products (db w) !! id)) ∧
     ((∃ e, result.1 = Raise e ∧
            invoices (db result.2) = invoices (db w) ∧
            session_cart result.2 = session_cart w ∧
            (invoices (db w) !! Payment.invoice payment.2 = None ∨
             ∃ k item, invoice_items (db w) !! k = Some item ∧
                       products (db w) !! InvoiceItem.product item = None)) ∨
      (∃ invoice context,
         invoices (db w) !! Payment.invoice payment.2 = Some invoice ∧
         result.1 = Ok (render "core/payment_success.html" context) ∧
         invoices (db result.2) =
           <[Payment.invoice payment.2 :=
               Invoice.with_number
                 (match Invoice.number invoice with
                  | None =>
                      Some (default 0 (Invoice_objects_aggregate_Max_number
                                         (invoices (db w))) + 1)
                  | Some n => Some n
                  end) invoice]> (invoices (db w)) ∧
         session_cart result.2 = Some []))).
Proof.
  intros result.
  assert (result = check_verification_result payment verify_result w) as Hres
    by done.
  clearbody result. unfold check_verification_result in Hres.
  unfold mbind at 1, View_bind at 1, lift in Hres.
  destruct verify_result as [| | | | | |o]; simpl in Hres;
    try (left; by eexists).
  unfold dict_get at 1 in Hres.
  unfold mbind at 1, View_bind at 1 in Hres.
  destruct (dict_lookup "data" o) as [[| | | | | |data]|] eqn:Hdata;
    simpl in Hres; try (left; by eexists).
  unfold dict_get at 1 in Hres.
  destruct (dict_lookup "code" data) as [code|] eqn:Hcode; simpl in Hres;
    [|by right; left].
  destruct (json_eq_int code 100) eqn:Hsuccess; [|by right; left].
  unfold mbind at 1, View_bind at 1 in Hres. unfold dict_getitem in Hres.
  rewrite Hdata in Hres.
  unfold mbind at 1, View_bind at 1 in Hres. simpl in Hres.
  unfold dict_getitem in Hres.
  destruct (dict_lookup "ref_id" data) as [ref_id|] eqn:Href;
    [|left; by eexists].
  right. right. exists ref_id. split.
  { simpl. by rewrite Hdata, Hcode, Hsuccess. }
  unfold mbind at 1, View_bind at 1, Payment_save in Hres.
  unfold mbind at 1, View_bind at 1, get_db, put_db in Hres. simpl in Hres.
  unfold mbind at 1, View_bind at 1 in Hres.
  unfold mbind at 1, View_bind at 1, objects_get in Hres. simpl in Hres.
  destruct (invoices (db w) !! Payment.invoice payment.2) as [invoice|] eqn:Hinvoice.
  2:{ subst result. simpl. split_and!; try done. left. eexists. by eauto. }
  unfold mbind at 1, View_bind at 1 in Hres. cbn [fst snd] in Hres.
  set (w1 := mkWorld _ _ _) in Hres.
  set (items := InvoiceItem_objects_filter_invoice _ _) in Hres.
  destruct (update_product_counts_frame items w1) as (Hi & Hit & Hp & Hs & Ho & Hdom).
  pose proof (update_product_counts_raises items w1) as Hraises.
  destruct (update_product_counts items w1) as [[[]|e] w2] eqn:Hloop;
    simpl in Hi, Hit, Hp, Hs, Ho, Hdom, Hraises.
  - view_unfold. simpl in Hres. subst result. simpl.
    rewrite Hit, Hp, Ho. split_and!; try done.
    right. exists invoice. eexists. split; [reflexivity|]. split; [reflexivity|].
    split; [|done]. rewrite Hi.
    destruct (Invoice.number invoice) as [n|] eqn:Hn; simpl; [|done].
    f_equal. unfold Invoice.with_number. rewrite <- Hn. by destruct invoice.
  - subst result. simpl. rewrite Hit, Hp, Ho, Hi, Hs. split_and!; try done.
    left. eexists. split_and!; try done. right.
    destruct (Hraises e eq_refl) as ([k item] & Hin & Hnone).
    exists k, item. split; [|done].
    apply elem_of_map_to_list, map_lookup_filter_Some in Hin as [Hin _].
    by destruct (Invoice.number invoice).
Qed.




(** What the code does on a verify response with a [data] object whose code
    is not the success code: the payment is marked in error, the failure
    page is shown, and nothing else changes. *)
Lemma verify_refused_marks_error gateway request w authority pk payment
    verify_result :
  dict_lookup "Status" (GET request) = Some "OK" →
  dict_lookup "Authority" (GET request) = Some authority → authority ≠ "" →
  Payment_objects_get authority Payment.STATUS_PENDING (payments (db w))
    = Ok (pk, payment) →
  gateway (verify_request authority payment) = Ok verify_result →
  verify_refused verify_result = true →
  VerifyView_get gateway request w =
    (Ok (payment_failed "Payment not verified!!"),
     mkWorld
       (set_payments
          (<[pk := Payment.with_status Payment.STATUS_ERROR payment]>
             (payments (db w))) (db w))
       (session_cart w) (verify_request authority payment :: outbox w)).
Proof.
  intros Hstatus Ha Hne Hget Hgw Hrefused.
  rewrite (VerifyView_get_found gateway request w authority (pk, payment) Ha Hne Hget).
  rewrite Hstatus, bool_decide_eq_true_2 by done. simpl. rewrite Hgw.
  unfold verify_refused in Hrefused.
  destruct verify_result as [| | | | | |o]; try done.
  destruct (dict_lookup "data" o) as [[| | | | | |data]|] eqn:Hdata; try done.
  unfold check_verification_result. view_unfold. simpl.
  unfold dict_get at 1. rewrite Hdata. simpl.
  apply negb_true_iff in Hrefused. by rewrite Hrefused.
Qed.

(** C8 (what the code does at the failing input).  The payment of scenario A
    is pending and the callback has Status=OK.  When the gateway's verify
    response is the error body [{"errors": {...}}] with no [data] object
    (or with an empty list under [data]), [verify_result.get('data')] is not
    a dict, the [.get('code')] on it raises [AttributeError], which no
    [except] clause catches: the payment stays pending and nothing is
    saved.  A response with a [data] object and another code does mark the
    payment in error. *)
Theorem verify_error_body_leaves_payment_pending :
  let request := callback "OK" "A1" in
  Payment_objects_get "A1" Payment.STATUS_PENDING (payments (db awaiting_payment))
    = Ok (1, pending_payment) ∧
  (let result := VerifyView_get refusing_gateway request awaiting_payment in
   result.1 = Raise AttributeError ∧
   db result.2 = db awaiting_payment ∧
   payments (db result.2) !! 1 = Some pending_payment ∧
   Payment.status pending_payment = Payment.STATUS_PENDING) ∧
  (let result := VerifyView_get refusing_gateway_v4 request awaiting_payment in
   result.1 = Raise AttributeError ∧ db result.2 = db awaiting_payment) ∧
  (let result := VerifyView_get rejecting_gateway request awaiting_payment in
   result.1 = Ok (payment_failed "Payment not verified!!") ∧
   payments (db result.2) !! 1 =
     Some (Payment.with_status Payment.STATUS_ERROR pending_payment)).
Proof.
  split_and!; by vm_compute.
Qed.

(** ** Every request, as a step of the settlement state machine *)

(** Every way [VerifyView.get] can go. *)
Lemma VerifyView_get_cases gateway request w :
  let result := VerifyView_get gateway request w in
  invoice_items (db result.2) = invoice_items (db w) ∧
  (∀ id, is_Some (products (db result.2) !! id) ↔ is_Some (products (db w) !! id)) ∧
  ((payments (db result.2) = payments (db w) ∧
    invoices (db result.2) = invoices (db w) ∧
    ∀ context, result.1 ≠ Ok (render "core/payment_success.html" context)) ∨
   ∃ authority pk payment,
     dict_lookup "Authority" (GET request) = Some authority ∧ authority ≠ "" ∧
     Payment_objects_get authority Payment.STATUS_PENDING (payments (db w))
       = Ok (pk, payment) ∧
     ((payments (db result.2) =
         <[pk := Payment.with_status Payment.STATUS_ERROR payment]>
           (payments (db w)) ∧
       invoices (db result.2) = invoices (db w) ∧
       ∃ reason, result.1 = Ok (payment_failed reason)) ∨
      (∃ ref,
         payments (db result.2) =
           <[pk := Payment.with_status Payment.STATUS_DONE
                     (Payment.with_ref (Some ref) payment)]> (payments (db w)) ∧
         ((∃ e, result.1 = Raise e ∧ invoices (db result.2) = invoices (db w) ∧
                (invoices (db w) !! Payment.invoice payment = None ∨
                 ∃ k item, invoice_items (db w) !! k = Some item ∧
                           products (db w) !! InvoiceItem.product item = None)) ∨
          (∃ invoice context,
             invoices (db w) !! Payment.invoice payment = Some invoice ∧
             result.1 = Ok (render "core/payment_success.html" context) ∧
             invoices (db result.2) =
               <[Payment.invoice payment :=
                   Invoice.with_number
                     (match Invoice.number invoice with
                      | None =>
                          Some (default 0 (Invoice_objects_aggregate_Max_number
                                             (invoices (db w))) + 1)
                      | Some n => Some n
                      end) invoice]> (invoices (db w))))))).
Proof.
  intros result.
  destruct (dict_lookup "Authority" (GET request)) as [authority|] eqn:Ha.
  2:{ unfold result, VerifyView_get. rewrite Ha. simpl.
      split; [done|]. split; [done|]. by left. }
  destruct (decide (authority = "")) as [->|Hne].
  { unfold result, VerifyView_get. rewrite Ha. simpl.
    split; [done|]. split; [done|]. by left. }
  destruct (Payment_objects_get authority Payment.STATUS_PENDING (payments (db w)))
    as [[pk payment]|e] eqn:Hget.
  2:{ unfold result, VerifyView_get. rewrite Ha.
      destruct authority as [|c authority]; [done|].
      view_unfold. simpl. rewrite Hget.
      split; [by destruct e|]. split; [by destruct e|]. left. by destruct e. }
  unfold result.
  rewrite (VerifyView_get_found gateway request w authority (pk, payment) Ha Hne Hget).
  destruct (bool_decide _).
  2:{ simpl. split; [done|]. split; [done|]. right. exists authority, pk, payment.
      split_and!; try done. left. split_and!; try done. by eexists. }
  cbv zeta. set (w1 := mkWorld _ _ _).
  destruct (gateway _) as [verify_result|e].
  2:{ split; [by destruct e|]. split; [by destruct e|]. left. by destruct e. }
  destruct (check_verification_result_cases (pk, payment) verify_result w1)
    as [[e ->]|[->|(ref_id & _ & Hp & Hit & _ & Hdom & Hrest)]].
  - split; [done|]. split; [done|]. by left.
  - simpl. split; [done|]. split; [done|]. right. exists authority, pk, payment.
    split_and!; try done. left. split_and!; try done. by eexists.
  - simpl in *. split; [done|]. split; [done|].
    right. exists authority, pk, payment.
    split_and!; try done. right. exists (json_str ref_id). split; [done|].
    destruct Hrest as [(e & He & Hi & _ & Hfk)|(invoice & context & Hinv & Hr & Hi & _)].
    + left. by exists e.
    + right. by exists invoice, context.
Qed.

Lemma build_invoice_items_products (items table : gmap Z Product.t) (invoice : Z)
    (lines : Cart) (invoice_item rows : list InvoiceItem.t) :
  (∀ id p, items !! id = Some p → table !! id = Some p) →
  build_invoice_items items invoice lines invoice_item = Ok rows →
  Forall (λ it, is_Some (table !! InvoiceItem.product it)) invoice_item →
  Forall (λ it, is_Some (table !! InvoiceItem.product it)) rows.
Proof.
  intros Hsub. revert invoice_item.
  induction lines as [|[k c] lines IH]; intros invoice_item Hrun Hacc; simpl in Hrun.
  - by injection Hrun as <-.
  - destruct (int k) as [id|]; [|done]. simpl in Hrun.
    unfold mbind, result_mbind, result_bind, objects_get in Hrun.
    destruct (items !! id) as [p|] eqn:Hp; [|done]. simpl in Hrun.
    apply (IH _ Hrun). apply Forall_app. split; [done|].
    apply Forall_singleton. simpl. rewrite (Hsub id p Hp). by eexists.
Qed.


(** Every way [CheckoutCartView.post] can go: nothing is saved; or a new,
    unnumbered invoice is saved and then, unless the loop over the cart
    lines raised, the items of the lines and a new payment for the invoice,
    pending or in error. *)
Lemma CheckoutCartView_post_cases gateway request w :
  let result := CheckoutCartView_post gateway request w in
  products (db result.2) = products (db w) ∧
  (db result.2 = db w ∨
   ∃ invoice,
     Invoice.number invoice = None ∧
     invoices (db result.2) =
       <[next_pk (invoices (db w)) := invoice]> (invoices (db w)) ∧
     ((payments (db result.2) = payments (db w) ∧
       invoice_items (db result.2) = invoice_items (db w)) ∨
      ∃ payment rows,
        payments (db result.2) =
          <[next_pk (payments (db w)) := payment]> (payments (db w)) ∧
        Payment.invoice payment = next_pk (invoices (db w)) ∧
        Payment.status payment ≠ Payment.STATUS_DONE ∧
        invoice_items (db result.2) = bulk_create rows (invoice_items (db w)) ∧
        Forall (λ it, is_Some (products (db w) !! InvoiceItem.product it)) rows)).
Proof.
  intros result.
  destruct (user request) as [[user_id email]|] eqn:Huser.
  2:{ unfold result, CheckoutCartView_post. rewrite Huser. split; [done|by left]. }
  destruct (InvoiceForm.is_valid (InvoiceForm.bind (POST request))) eqn:Hvalid.
  2:{ unfold result, CheckoutCartView_post. rewrite Huser, Hvalid.
      split; [done|by left]. }
  unfold result.
  rewrite (CheckoutCartView_post_steps gateway request w user_id email Huser Hvalid).
  cbv zeta.
  destruct (build_invoice_items _ _ _ _) as [rows|e] eqn:Hrows.
  - match goal with
    | |- context [request_payment gateway ?p ?d ?w0] =>
        destruct (request_payment_spec gateway p d w0)
          as (response & payment & -> & Hinv & _ & Hst)
    end.
    simpl in *. split; [done|]. right.
    eexists. split; [|split; [reflexivity|]]; [done|].
    right. exists payment, rows. split_and!; try done.
    + destruct Hst as [[-> _]|[-> _]]; discriminate.
    + eapply build_invoice_items_products; [|exact Hrows|by apply Forall_nil].
      intros id p Hp. by apply map_lookup_filter_Some in Hp as [? _].
  - simpl. split; [done|]. right.
    eexists. split; [|split; [reflexivity|]]; [done|]. by left.
Qed.





(** ** Invoice numbers *)







(** * Further properties of the code *)

(** ** [str] and [int] *)

Lemma digits_value_acc (s : string) (acc : Z) :
  digits_value acc s = acc * 10 ^ Z.of_nat (String.length s) + digits_value 0 s.
Proof.
  revert acc. induction s as [|c s IH]; intros acc; simpl digits_value.
  - simpl. lia.
  - rewrite IH, (IH (10 * 0 + _)).
    change (String.length (String c s)) with (S (String.length s)).
    rewrite Nat2Z.inj_succ, Z.pow_succ_r by lia. lia.
Qed.

Lemma pretty_N_char_digit (d : N) :
  (d < 10)%N →
  is_digit (pretty_N_char d) = true ∧
  Z.of_nat (default 0%nat (Ascii.is_nat (pretty_N_char d))) = Z.of_N d.
Proof.
  intros Hd.
  assert (d = 0 ∨ d = 1 ∨ d = 2 ∨ d = 3 ∨ d = 4 ∨ d = 5 ∨ d = 6 ∨ d = 7
          ∨ d = 8 ∨ d = 9)%N as Hcases by lia.
  repeat destruct Hcases as [->|Hcases]; try subst d; by compute.
Qed.

Lemma pretty_N_go_digits (x : N) (s : string) :
  all_digits s = true →
  all_digits (pretty_N_go x s) = true ∧
  (s ≠ "" ∨ (0 < x)%N → pretty_N_go x s ≠ "") ∧
  digits_value 0 (pretty_N_go x s)
    = Z.of_N x * 10 ^ Z.of_nat (String.length s) + digits_value 0 s.
Proof.
  revert s. induction (N.lt_wf_0 x) as [x _ IH]; intros s Hs.
  assert (x = 0 ∨ 0 < x)%N as [->|Hx] by lia.
  - rewrite pretty_N_go_0. split_and!; [done| |simpl; lia].
    intros [?|?]; [done|lia].
  - rewrite pretty_N_go_step by done.
    destruct (pretty_N_char_digit (x `mod` 10)%N) as [Hd Hv].
    { by apply N.mod_lt. }
    destruct (IH (x `div` 10)%N (N.div_lt x 10 Hx eq_refl)
                 (String (pretty_N_char (x `mod` 10)) s)) as (Hall & Hne & Hval).
    { simpl. by rewrite Hd, Hs. }
    split_and!; [done|intros _; apply Hne; by left|].
    rewrite Hval. simpl digits_value. rewrite (digits_value_acc s), Hv.
    change (String.length (String (pretty_N_char (x `mod` 10)) s))
      with (S (String.length s)).
    rewrite Nat2Z.inj_succ, Z.pow_succ_r by lia.
    rewrite (N.div_mod x 10) at 3 by done.
    rewrite N2Z.inj_add, N2Z.inj_mul. simpl Z.of_N. lia.
Qed.

Lemma pretty_positive_digits (p : positive) :
  isdigit (pretty p) = true ∧ digits_value 0 (pretty p) = Zpos p ∧
  int (pretty p) = Ok (Zpos p).
Proof.
  unfold pretty, pretty_positive, pretty, pretty_N.
  rewrite decide_False by done.
  destruct (pretty_N_go_digits (Npos p) "" eq_refl) as (Hall & Hne & Hval).
  assert (isdigit (pretty_N_go (N.pos p) "") = true) as Hd.
  { unfold isdigit. destruct (pretty_N_go (N.pos p) "") eqn:Hs; [|done].
    exfalso. apply Hne; [right; lia|done]. }
  assert (digits_value 0 (pretty_N_go (N.pos p) "") = Z.pos p) as Hv.
  { rewrite Hval. simpl. lia. }
  split_and!; [done..|]. by rewrite (isdigit_int _ Hd), Hv.
Qed.

(** [int] reads back what [str] writes. *)
Lemma int_str (n : Z) : int (str n) = Ok n.
Proof.
  unfold str, pretty, pretty_Z. destruct n as [|p|p]; [done| |].
  - apply pretty_positive_digits.
  - destruct (pretty_positive_digits p) as (Hd & Hv & _).
    change ("-" +:+ pretty p) with (String "-"%char (pretty p)).
    unfold int. by rewrite Hd, Hv.
Qed.

(** [str(n).isdigit()] tests [n >= 0]: the sign of a negative number is not
    a digit. *)
Lemma isdigit_str (n : Z) : isdigit (str n) = true ↔ 0 ≤ n.
Proof.
  unfold str, pretty, pretty_Z. destruct n as [|p|p].
  - split; [lia|done].
  - destruct (pretty_positive_digits p) as (Hd & _). split; [lia|done].
  - split; [|lia]. change ("-" +:+ pretty p) with (String "-"%char (pretty p)).
    by compute.
Qed.

(** X1.  [int(str(n))] is [n] for every integer [n], and [str(n)] is a
    digit string ([isdigit]) exactly when [n] is not negative: the key that
    [add_to_cart] writes for a product is read back as the product's id by
    the loops over the cart, and [str(count).isdigit()] in
    [get_cart_total_price] tests [count >= 0]. *)
Theorem int_str_round_trip (n : Z) :
  int (str n) = Ok n ∧ (isdigit (str n) = true ↔ 0 ≤ n).
Proof. split; [apply int_str | apply isdigit_str]. Qed.

(** ** Removing from the cart, and the cart's invariant *)

Section dict_del_facts.
Context {V : Type}.
Implicit Types (d : dict V) (k : string) (v : V).

Lemma dict_lookup_None d k : dict_lookup k d = None ↔ k ∉ dict_keys d.
Proof.
  induction d as [|[k' v'] d IH]; simpl.
  - split; [intros _; apply not_elem_of_nil | done].
  - rewrite not_elem_of_cons. destruct (decide (k' = k)) as [->|Hne].
    + split; [done | by intros [? _]].
    + rewrite IH. split; [by intros ?; split | by intros [_ ?]].
Qed.

Lemma dict_contains_lookup d k :
  dict_contains k d = false ↔ dict_lookup k d = None.
Proof.
  unfold dict_contains. rewrite bool_decide_eq_false, <- eq_None_not_Some. done.
Qed.

Lemma dict_delitem_absent d k : dict_lookup k d = None → dict_delitem k d = d.
Proof.
  induction d as [|[k' v'] d IH]; simpl; [done|].
  destruct (decide (k' = k)); [done|]. intros Hnone. by rewrite IH.
Qed.

Lemma dict_lookup_delitem_ne d k k' :
  k' ≠ k → dict_lookup k' (dict_delitem k d) = dict_lookup k' d.
Proof.
  intros Hne. induction d as [|[k0 v0] d IH]; simpl; [done|].
  destruct (decide (k0 = k)) as [->|Hne0]; simpl.
  - by rewrite decide_False.
  - by rewrite IH.
Qed.

Lemma dict_delitem_sublist d k : dict_delitem k d `sublist_of` d.
Proof.
  induction d as [|[k0 v0] d IH]; simpl; [done|].
  destruct (decide (k0 = k)); [by apply sublist_cons | by apply sublist_skip].
Qed.

Lemma dict_keys_delitem d k :
  NoDup (dict_keys d) → NoDup (dict_keys (dict_delitem k d)).
Proof.
  intros Hd. eapply sublist_NoDup; [exact Hd|].
  apply fmap_sublist, dict_delitem_sublist.
Qed.

Lemma dict_lookup_delitem_eq d k :
  NoDup (dict_keys d) → dict_lookup k (dict_delitem k d) = None.
Proof.
  induction d as [|[k0 v0] d IH]; simpl; [done|].
  intros [Hnotin Hd]%NoDup_cons.
  destruct (decide (k0 = k)) as [->|Hne]; simpl.
  - by apply dict_lookup_None.
  - rewrite decide_False by done. by apply IH.
Qed.

Lemma dict_delitem_setitem d k v :
  dict_delitem k (dict_setitem k v d) = dict_delitem k d.
Proof.
  induction d as [|[k0 v0] d IH]; simpl.
  - by rewrite decide_True.
  - destruct (decide (k0 = k)) as [->|Hne]; simpl.
    + by rewrite decide_True.
    + by rewrite decide_False, IH.
Qed.

End dict_del_facts.

(** [remove_from_cart] is the deletion of the key: the membership test only
    guards [del] against a missing key. *)
Lemma remove_from_cart_delitem (cart : Cart) (item_id : Z) :
  remove_from_cart cart item_id = dict_delitem (str item_id) cart.
Proof.
  unfold remove_from_cart.
  destruct (dict_contains (str item_id) cart) eqn:Hin; [done|].
  symmetry. by apply dict_delitem_absent, dict_contains_lookup.
Qed.

(** X2.  [remove_from_cart] takes the product's whole line out of the cart
    (whatever its quantity, where [add_to_cart] adds one unit): afterwards
    the product has no entry, every other entry is as it was, and a cart
    that has no entry for the product is returned unchanged. *)
Theorem remove_from_cart_spec (cart : Cart) (item_id : Z) :
  NoDup (dict_keys cart) →
  dict_lookup (str item_id) (remove_from_cart cart item_id) = None ∧
  (∀ k, k ≠ str item_id →
     dict_lookup k (remove_from_cart cart item_id) = dict_lookup k cart) ∧
  (∀ id, id ≠ item_id →
     dict_lookup (str id) (remove_from_cart cart item_id)
       = dict_lookup (str id) cart) ∧
  NoDup (dict_keys (remove_from_cart cart item_id)) ∧
  (dict_lookup (str item_id) cart = None → remove_from_cart cart item_id = cart).
Proof.
  intros Hd. rewrite remove_from_cart_delitem. split_and!.
  - by apply dict_lookup_delitem_eq.
  - intros k Hk. by apply dict_lookup_delitem_ne.
  - intros id Hid. apply dict_lookup_delitem_ne.
    unfold str. intros Heq. by apply (inj pretty) in Heq.
  - by apply dict_keys_delitem.
  - apply dict_delitem_absent.
Qed.

Lemma remove_from_cart_spec_witness :
  dict_lookup "5" (remove_from_cart [("5", 2); ("8", 1)] 5) = None ∧
  dict_lookup "8" (remove_from_cart [("5", 2); ("8", 1)] 5) = Some 1.
Proof.
  destruct (remove_from_cart_spec [("5", 2); ("8", 1)] 5) as (H1 & H2 & _).
  - apply (bool_decide_unpack _). by vm_compute.
  - split; [exact H1 | exact (H2 "8" ltac:(discriminate))].
Defined.

(** X3.  Removing a product right after adding it gives the cart that
    removing it from the original cart gives: the added unit leaves no
    trace, whether or not the product was available and whether or not it
    was in the cart before. *)
Theorem remove_after_add (cart : Cart) (obj : Z * Product.t) :
  remove_from_cart (add_to_cart cart obj) obj.1 = remove_from_cart cart obj.1.
Proof.
  rewrite !remove_from_cart_delitem. unfold add_to_cart.
  destruct (_ && _); [|done]. apply dict_delitem_setitem.
Qed.

Lemma add_to_cart_available (cart : Cart) (obj : Z * Product.t) :
  Product.count obj.2 > 0 → Product.enabled obj.2 = true →
  add_to_cart cart obj
    = dict_setitem (str obj.1) (dict_get (str obj.1) 0 cart + 1) cart.
Proof.
  intros Hc He. unfold add_to_cart. by rewrite He, bool_decide_eq_true_2.
Qed.

(** X4.  [add_to_cart] never compares the quantity in the cart with the
    stock: adding an available product [n] times raises its quantity by
    [n], however few units are in stock. *)
Theorem add_to_cart_repeated (cart : Cart) (obj : Z * Product.t) (n : nat) :
  Product.count obj.2 > 0 → Product.enabled obj.2 = true →
  dict_get (str obj.1) 0 (Nat.iter n (λ cart, add_to_cart cart obj) cart)
    = dict_get (str obj.1) 0 cart + Z.of_nat n.
Proof.
  intros Hc He. induction n as [|n IH].
  - simpl. lia.
  - rewrite Nat2Z.inj_succ. simpl Nat.iter.
    rewrite add_to_cart_available by done.
    unfold dict_get at 1. rewrite dict_lookup_setitem_eq. simpl. lia.
Qed.

Lemma add_to_cart_repeated_witness :
  dict_get "5" 0 (Nat.iter 25 (λ cart, add_to_cart cart (5, pen)) []) = 25.
Proof.
  apply (add_to_cart_repeated [] (5, pen) 25); reflexivity.
Defined.

Lemma dict_values_sum_acc (cart : Cart) (acc : Z) :
  foldl Z.add acc cart.*2 = acc + dict_values_sum cart.
Proof.
  unfold dict_values_sum. revert acc.
  induction cart as [|[k v] cart IH]; intros acc; csimpl; [lia|].
  rewrite IH, (IH (0 + v)). lia.
Qed.

Lemma dict_values_sum_cons (cart : Cart) k v :
  dict_values_sum ((k, v) :: cart) = v + dict_values_sum cart.
Proof. unfold dict_values_sum at 1. simpl. by rewrite dict_values_sum_acc. Qed.

Lemma dict_values_sum_setitem (cart : Cart) k v :
  dict_values_sum (dict_setitem k v cart)
    = dict_values_sum cart - dict_get k 0 cart + v.
Proof.
  unfold dict_get. induction cart as [|[k0 v0] cart IH]; simpl.
  - rewrite dict_values_sum_cons. unfold dict_values_sum. simpl. lia.
  - destruct (decide (k0 = k)) as [->|Hne]; simpl.
    + rewrite !dict_values_sum_cons. lia.
    + rewrite !dict_values_sum_cons, IH. lia.
Qed.

Lemma dict_values_sum_delitem (cart : Cart) k :
  dict_values_sum (dict_delitem k cart) = dict_values_sum cart - dict_get k 0 cart.
Proof.
  unfold dict_get. induction cart as [|[k0 v0] cart IH]; simpl.
  - unfold dict_values_sum. simpl. lia.
  - destruct (decide (k0 = k)) as [->|Hne]; simpl.
    + rewrite !dict_values_sum_cons. lia.
    + rewrite !dict_values_sum_cons, IH. lia.
Qed.

(** X5.  The number of units in the cart, as the [dict_values_sum] filter
    shows it, goes up by exactly one when an available product is added,
    stays when an unavailable one is, and goes down by the product's whole
    quantity when the product is removed. *)
Theorem dict_values_sum_add_remove (cart : Cart) (obj : Z * Product.t) :
  dict_values_sum (add_to_cart cart obj)
    = dict_values_sum cart
      + (if bool_decide (Product.count obj.2 > 0) && Product.enabled obj.2
         then 1 else 0) ∧
  dict_values_sum (remove_from_cart cart obj.1)
    = dict_values_sum cart - default 0 (get_item cart obj.1).
Proof.
  split.
  - unfold add_to_cart. destruct (_ && _); [|lia].
    rewrite dict_values_sum_setitem. lia.
  - rewrite remove_from_cart_delitem. apply dict_values_sum_delitem.
Qed.

Lemma cart_ok_add (cart : Cart) (obj : Z * Product.t) :
  0 ≤ obj.1 → cart_ok cart → cart_ok (add_to_cart cart obj).
Proof.
  intros Hid [Hnd Hall]. unfold add_to_cart. destruct (_ && _); [|done].
  assert (0 ≤ dict_get (str obj.1) 0 cart) as Hget.
  { unfold dict_get. destruct (dict_lookup (str obj.1) cart) as [v|] eqn:Hv;
      simpl; [|lia].
    clear Hnd. induction Hall as [|[k0 v0] cart [_ H0] _ IH]; [done|].
    simpl in Hv, H0. destruct (decide (k0 = str obj.1)); [|by apply IH].
    injection Hv as <-. lia. }
  split.
  - rewrite dict_keys_setitem.
    destruct (dict_contains (str obj.1) cart) eqn:Hin; [done|].
    apply dict_contains_lookup, dict_lookup_None in Hin.
    apply NoDup_app. split_and!; [done| |apply NoDup_singleton].
    intros k Hk ->%list_elem_of_singleton. done.
  - clear Hnd. revert Hget. generalize (dict_get (str obj.1) 0 cart). intros v Hv.
    induction Hall as [|[k0 v0] cart [Hk0 H0] Hall IH]; simpl.
    + apply Forall_singleton. simpl. split; [by apply isdigit_str | lia].
    + destruct (decide (k0 = str obj.1)) as [->|Hne].
      * apply Forall_cons. split; [simpl; split; [done|lia]|done].
      * apply Forall_cons. by split.
Qed.

Lemma cart_ok_remove (cart : Cart) (item_id : Z) :
  cart_ok cart → cart_ok (remove_from_cart cart item_id).
Proof.
  intros [Hnd Hall]. rewrite remove_from_cart_delitem. split.
  - by apply dict_keys_delitem.
  - clear Hnd. induction Hall as [|[k0 v0] cart H0 Hall IH]; simpl; [done|].
    destruct (decide (k0 = str item_id)); [done|]. by apply Forall_cons.
Qed.

Lemma get_cart_default (session : option Cart) : get_cart session = default [] session.
Proof. unfold get_cart. by destruct (default [] session). Qed.

(** What a request does to the session's cart. *)
Lemma handle_session_cases gateway r w :
  let result := handle gateway r w in
  match r with
  | GET_cart_add _ item_id =>
      session_cart result.2 = session_cart w ∨
      ∃ product, products (db w) !! item_id = Some product ∧
        session_cart result.2
          = Some (add_to_cart (get_cart (session_cart w)) (item_id, product))
  | POST_cart_remove _ item_id =>
      session_cart result.2
        = Some (remove_from_cart (get_cart (session_cart w)) item_id)
  | GET_cart_empty _ => session_cart result.2 = Some []
  | POST_checkout _ => session_cart result.2 = session_cart w
  | GET_verify _ =>
      session_cart result.2 = session_cart w ∨ session_cart result.2 = Some []
  end.
Proof.
  destruct r as [request item_id|request item_id|request|request|request]; simpl.
  - unfold AddToCartView_get, objects_get. view_unfold. simpl.
    destruct (products (db w) !! item_id) as [product|] eqn:Hp; simpl;
      [|by left].
    right. exists product. split; [done|]. by destruct (is_ajax _).
  - unfold RemoveFromCartView_post. view_unfold. simpl. by destruct (is_ajax _).
  - unfold EmptyCartView_get. view_unfold. simpl. by destruct (is_ajax _).
  - destruct (user request) as [[user_id email]|] eqn:Huser.
    2:{ unfold CheckoutCartView_post. by rewrite Huser. }
    destruct (InvoiceForm.is_valid (InvoiceForm.bind (POST request))) eqn:Hvalid.
    2:{ unfold CheckoutCartView_post. by rewrite Huser, Hvalid. }
    rewrite (CheckoutCartView_post_steps gateway request w user_id email Huser Hvalid).
    cbv zeta. destruct (build_invoice_items _ _ _ _) as [rows|e]; [|done].
    match goal with
    | |- context [request_payment gateway ?p ?d ?w0] =>
        destruct (request_payment_spec gateway p d w0) as (? & ? & -> & _)
    end.
    done.
  - unfold VerifyView_get.
    destruct (dict_lookup "Authority" (GET request)) as [[|c authority]|];
      [by left| |by left].
    view_unfold. simpl.
    destruct (Payment_objects_get _ _ _) as [payment|[]]; simpl; try by left.
    destruct (negb _); simpl; [by left|].
    destruct (gateway _) as [verify_result|[]]; simpl; try by left.
    set (w1 := mkWorld _ _ _).
    destruct (check_verification_result_cases payment verify_result w1)
      as [[e ->]|[->|(ref_id & _ & _ & _ & _ & _ &
                      [(e & _ & _ & -> & _)|(? & ? & _ & _ & _ & ->)])]];
      auto.
Qed.

(** X6.  The session's cart stays well formed under every request: no key
    twice, every key a product id written in decimal, every quantity at
    least 1.  (The id in the URL of a cart request is matched by
    [<int:item_id>], so it is not negative.) *)
Theorem cart_ok_invariant gateway (r : Request) (w : World) :
  url_ok r → cart_ok (get_cart (session_cart w)) →
  cart_ok (get_cart (session_cart (handle gateway r w).2)).
Proof.
  intros Hurl Hok. pose proof (handle_session_cases gateway r w) as Hcases.
  assert (cart_ok []) as Hnil by (split; [apply NoDup_nil_2 | apply Forall_nil_2]).
  destruct r as [request item_id|request item_id|request|request|request];
    simpl in Hcases, Hurl; cbn [handle].
  - destruct Hcases as [->|(product & _ & ->)]; [done|].
    rewrite get_cart_default. simpl. by apply cart_ok_add.
  - rewrite Hcases, get_cart_default. simpl. by apply cart_ok_remove.
  - by rewrite Hcases.
  - by rewrite Hcases.
  - by destruct Hcases as [->| ->].
Qed.

Lemma cart_ok_invariant_witness :
  cart_ok (get_cart (session_cart
    (handle sandbox_gateway (GET_cart_add buyer_post 5) (shop scenario_A_cart)).2)).
Proof.
  apply cart_ok_invariant.
  - simpl. lia.
  - split.
    + apply (bool_decide_unpack _). by vm_compute.
    + apply Forall_singleton. simpl. split; [reflexivity | lia].
Defined.

(** ** The invoice total *)



Lemma round_half_even_cases (x : Q) :
  (round_half_even x = Qfloor x ∧ (x - inject_Z (Qfloor x) <= 1 # 2)%Q) ∨
  (round_half_even x = Qfloor x + 1 ∧ (1 # 2 <= x - inject_Z (Qfloor x))%Q).
Proof.
  unfold round_half_even.
  destruct (Qcompare_spec (x - inject_Z (Qfloor x)) (1 # 2)) as [Heq|Hlt|Hgt].
  - destruct (Z.even (Qfloor x)); [left|right]; (split; [done|]);
      rewrite Heq; apply Qle_refl.
  - left. split; [done|]. by apply Qlt_le_weak.
  - right. split; [done|]. by apply Qlt_le_weak.
Qed.


Lemma round2_value (x : Q) :
  (round2 x == inject_Z (round_half_even (x * 100)) * (1 # 100))%Q.
Proof. unfold round2. rewrite Qred_correct. field. Qed.


Lemma round2_nonneg (x : Q) : (0 <= x)%Q → (0 <= round2 x)%Q.
Proof.
  intros Hx. rewrite round2_value.
  assert (0 ≤ Qfloor (x * 100)) as Hfloor.
  { change 0 with (Qfloor 0). apply Qfloor_resp_le. lra. }
  assert (0 ≤ round_half_even (x * 100)) as Hr.
  { destruct (round_half_even_cases (x * 100)) as [[-> _]|[-> _]]; lia. }
  apply Qmult_le_0_compat; [|done].
  change 0%Q with (inject_Z 0). by rewrite <- Zle_Qle.
Qed.

Lemma or_zero (x : Q) : (or_ x 0 == x)%Q.
Proof.
  unfold or_. destruct (Qeq_bool x 0) eqn:Hx; [|reflexivity].
  apply Qeq_bool_iff in Hx. by rewrite Hx.
Qed.






Lemma add_line_price_nonneg (product_map : gmap Z Product.t) total line :
  (∀ id p, product_map !! id = Some p →
           0 ≤ Product.price p ∧ (Product.discount p <= 100)%Q) →
  (0 <= total)%Q → (0 <= add_line_price product_map total line)%Q.
Proof.
  intros Hproducts Htotal. unfold add_line_price.
  destruct (int line.1) as [id|]; [|done].
  destruct (product_map !! id) as [p|] eqn:Hp; [|done].
  destruct (Hproducts id p Hp) as [Hprice Hdiscount].
  assert (0 <= inject_Z (Product.price p))%Q as Hprice'.
  { change 0%Q with (inject_Z 0). by rewrite <- Zle_Qle. }
  assert (0 <= inject_Z (if isdigit (str line.2) then line.2 else 0))%Q as Hcount.
  { change 0%Q with (inject_Z 0). rewrite <- Zle_Qle.
    destruct (isdigit (str line.2)) eqn:Hd; [by apply isdigit_str | done]. }
  assert (0 <= 1 - or_ (Product.discount p) 0 / 100)%Q as Hfactor.
  { rewrite or_zero.
    assert (Product.discount p / 100 == Product.discount p * (1 # 100))%Q as ->
      by field.
    lra. }
  assert (0 <= inject_Z (Product.price p) * (1 - or_ (Product.discount p) 0 / 100)
               * inject_Z (if isdigit (str line.2) then line.2 else 0))%Q.
  { by repeat apply Qmult_le_0_compat. }
  lra.
Qed.

(** X8.  When every product has a price that is not negative and a discount
    of at most 100 percent, the total of [get_cart_total_price] is never
    negative, whatever the cart holds: a negative quantity counts as 0
    there, where [prepare_cart_data] subtracts it. *)
Theorem get_cart_total_price_nonneg (table : gmap Z Product.t) (cart : Cart) :
  (∀ id p, table !! id = Some p →
           0 ≤ Product.price p ∧ (Product.discount p <= 100)%Q) →
  (0 <= get_cart_total_price table cart)%Q.
Proof.
  intros Hproducts. unfold get_cart_total_price.
  destruct cart as [|line cart]; [done|].
  destruct (cart_product_ids _) as [[|id ids]|]; [done| |done].
  apply round2_nonneg.
  set (product_map := Product_objects_filter_id_in _ _).
  assert (∀ id p, product_map !! id = Some p →
                  0 ≤ Product.price p ∧ (Product.discount p <= 100)%Q) as Hmap.
  { intros i p [Hp _]%map_lookup_filter_Some. by eapply Hproducts. }
  assert (∀ lines total, (0 <= total)%Q →
            (0 <= foldl (add_line_price product_map) total lines)%Q) as Hfold.
  { induction lines as [|l lines IH]; intros total Htotal; [done|].
    simpl. apply IH. by apply add_line_price_nonneg. }
  apply Hfold. done.
Qed.

Lemma get_cart_total_price_nonneg_witness :
  (0 <= get_cart_total_price scenario_A_products [("5", (-3)%Z)])%Q.
Proof.
  apply get_cart_total_price_nonneg. intros id p Hp.
  unfold scenario_A_products in Hp. apply lookup_singleton_Some in Hp as [_ <-]. split; [by vm_compute|].
  by vm_compute.
Defined.




(** ** The payment request of the checkout *)












(** X13.  A checkout never touches the session's cart or the products (the
    cart is not emptied and no stock is reserved), never changes or deletes
    an invoice, item or payment that exists, and sends the gateway at most
    one request, to the payment-request URL. *)
Theorem checkout_frame gateway request w :
  let result := CheckoutCartView_post gateway request w in
  session_cart result.2 = session_cart w ∧
  products (db result.2) = products (db w) ∧
  (∀ k x, invoices (db w) !! k = Some x → invoices (db result.2) !! k = Some x) ∧
  (∀ k x, invoice_items (db w) !! k = Some x →
          invoice_items (db result.2) !! k = Some x) ∧
  (∀ k x, payments (db w) !! k = Some x → payments (db result.2) !! k = Some x) ∧
  (outbox result.2 = outbox w ∨
   ∃ d, outbox result.2 = mkGatewayRequest ZARINPAL_REQUEST_URL d :: outbox w).
Proof.
  intros result.
  pose proof (handle_session_cases gateway (POST_checkout request) w) as Hsession.
  simpl in Hsession. fold result in Hsession.
  destruct (CheckoutCartView_post_cases gateway request w) as [Hproducts Hcases].
  fold result in Hproducts, Hcases.
  assert (∀ {R} (table : gmap Z R) r k x,
            table !! k = Some x → <[next_pk table := r]> table !! k = Some x)
    as Hkeep.
  { intros R table r k x Hk. rewrite lookup_insert_ne; [done|].
    intros <-. by rewrite next_pk_fresh in Hk. }
  split; [done|]. split; [done|]. split_and!.
  - destruct Hcases as [->|(invoice & _ & -> & _)]; [done|]. apply Hkeep.
  - destruct Hcases as [->|(invoice & _ & _ & [[_ ->]|(p & rows & _ & _ & _ & -> & _)])];
      try done.
    intros k x. apply bulk_create_old.
  - destruct Hcases as [->|(invoice & _ & _ & [[-> _]|(p & rows & -> & _)])];
      try done.
    apply Hkeep.
  - unfold result.
    destruct (user request) as [[user_id email]|] eqn:Huser.
    2:{ unfold CheckoutCartView_post. rewrite Huser. by left. }
    destruct (InvoiceForm.is_valid (InvoiceForm.bind (POST request))) eqn:Hvalid.
    2:{ unfold CheckoutCartView_post. rewrite Huser, Hvalid. by left. }
    rewrite (CheckoutCartView_post_steps gateway request w user_id email Huser Hvalid).
    cbv zeta. destruct (build_invoice_items _ _ _ _) as [rows|e]; [|by left].
    match goal with
    | |- context [request_payment gateway ?p ?d ?w0] =>
        destruct (request_payment_spec gateway p d w0) as (? & ? & -> & _)
    end.
    right. by eexists.
Qed.

(** ** The verify callback, continued *)

(** X14.  A callback whose authority names no pending payment (also one
    with no authority at all) gets a failure page and changes nothing: no
    payment, invoice, product or cart is touched and the gateway is not
    asked. *)
Theorem verify_without_pending_payment gateway request w :
  (∀ authority pk payment,
     dict_lookup "Authority" (GET request) = Some authority →
     payments (db w) !! pk = Some payment →
     Payment.authority payment = authority →
     Payment.status payment ≠ Payment.STATUS_PENDING) →
  ∃ reason, VerifyView_get gateway request w = (Ok (payment_failed reason), w).
Proof.
  intros Hnone.
  destruct (dict_lookup "Authority" (GET request)) as [authority|] eqn:Ha.
  - eexists. apply (VerifyView_get_not_found gateway request w authority Ha).
    apply Payment_objects_get_DoesNotExist. intros pk payment Hpk [Hauth Hst].
    by apply (Hnone authority pk payment).
  - eexists. unfold VerifyView_get. by rewrite Ha.
Qed.

Lemma verify_without_pending_payment_witness :
  ∃ reason,
    VerifyView_get sandbox_gateway (callback "OK" "A1") (shop scenario_A_cart)
      = (Ok (payment_failed reason), shop scenario_A_cart).
Proof.
  apply verify_without_pending_payment.
  intros authority pk payment _ Hpk. simpl in Hpk.
  by rewrite lookup_empty in Hpk.
Defined.

(** X15.  When the exchange with the gateway fails during verification, the
    view shows "Network error!" and saves nothing: the payment stays
    pending, so the callback can come again, and a second callback that the
    gateway confirms settles the payment and numbers its invoice. *)
Theorem verify_network_error_then_retry gateway gateway' request w authority
    pk payment verify_result ref_id invoice :
  dict_lookup "Status" (GET request) = Some "OK" →
  dict_lookup "Authority" (GET request) = Some authority → authority ≠ "" →
  Payment_objects_get authority Payment.STATUS_PENDING (payments (db w))
    = Ok (pk, payment) →
  gateway (verify_request authority payment) = Raise RequestException →
  gateway' (verify_request authority payment) = Ok verify_result →
  verified_ref_id verify_result = Some ref_id →
  invoices (db w) !! Payment.invoice payment = Some invoice →
  items_have_product (db w) = true →
  let first := VerifyView_get gateway request w in
  let second := VerifyView_get gateway' request first.2 in
  first =
    (Ok (payment_failed "Network error!"),
     mkWorld (db w) (session_cart w) (verify_request authority payment :: outbox w)) ∧
  (∃ context, second.1 = Ok (render "core/payment_success.html" context)) ∧
  payments (db second.2) =
    <[pk := Payment.with_status Payment.STATUS_DONE
              (Payment.with_ref (Some (json_str ref_id)) payment)]>
      (payments (db w)) ∧
  (∃ n, invoices (db second.2) !! Payment.invoice payment
          = Some (Invoice.with_number (Some n) invoice)) ∧
  session_cart second.2 = Some [].
Proof.
  intros Hstatus Ha Hne Hget Hgw Hgw' Hok Hinvoice Hfk first second.
  assert (first =
            (Ok (payment_failed "Network error!"),
             mkWorld (db w) (session_cart w)
               (verify_request authority payment :: outbox w))) as Hfirst.
  { unfold first.
    rewrite (VerifyView_get_found gateway request w authority (pk, payment)
               Ha Hne Hget).
    rewrite Hstatus, bool_decide_eq_true_2 by done. simpl. by rewrite Hgw. }
  split; [done|]. unfold second. rewrite Hfirst. simpl.
  set (w1 := mkWorld _ _ _).
  rewrite (VerifyView_get_found gateway' request w1 authority (pk, payment)
             Ha Hne Hget).
  rewrite Hstatus, bool_decide_eq_true_2 by done. simpl. rewrite Hgw'.
  set (w2 := mkWorld _ _ _).
  destruct (check_verification_result_success (pk, payment) verify_result ref_id
              invoice w2 Hok Hinvoice Hfk) as (table & -> & _).
  simpl. split_and!; [eexists; reflexivity|done| |done].
  rewrite lookup_insert_eq. destruct (Invoice.number invoice); by eexists.
Qed.

Lemma verify_network_error_then_retry_witness :
  let first :=
    VerifyView_get (λ _, Raise RequestException) (callback "OK" "A1")
      awaiting_payment in
  let second := VerifyView_get sandbox_gateway (callback "OK" "A1") first.2 in
  first.1 = Ok (payment_failed "Network error!") ∧
  db first.2 = db awaiting_payment ∧
  payments (db second.2) !! 1
    = Some (Payment.with_status Payment.STATUS_DONE
              (Payment.with_ref (Some "777") pending_payment)).
Proof.
  destruct (verify_network_error_then_retry (λ _, Raise RequestException)
              sandbox_gateway (callback "OK" "A1") awaiting_payment "A1" 1
              pending_payment
              (JObj [("data", JObj [("code", JNum 100); ("ref_id", JNum 777)])])
              (JNum 777) (Invoice.mk None 1 180 0 None "1 Main Street" 9))
    as (H1 & _ & H2 & _);
    [reflexivity | reflexivity | discriminate | by vm_compute | reflexivity
    | reflexivity | reflexivity | by vm_compute | by vm_compute |].
  simpl in H1, H2. rewrite H1. simpl. split; [done|]. split; [done|].
  rewrite H1 in H2. simpl in H2. rewrite H2. apply lookup_insert_eq.
Defined.

(** X16.  A verify response that carries neither the success code with a
    reference nor a [data] object with another code (no [data] object at
    all, or code 100 without [ref_id]) makes the view raise
    [AttributeError] or [KeyError] before anything is saved: the payment
    stays pending and only the request sent is recorded. *)
Theorem verify_unusable_response_raises gateway request w authority pk payment
    verify_result :
  dict_lookup "Status" (GET request) = Some "OK" →
  dict_lookup "Authority" (GET request) = Some authority → authority ≠ "" →
  Payment_objects_get authority Payment.STATUS_PENDING (payments (db w))
    = Ok (pk, payment) →
  gateway (verify_request authority payment) = Ok verify_result →
  verified_ref_id verify_result = None →
  verify_refused verify_result = false →
  ∃ e, (e = AttributeError ∨ e = KeyError) ∧
    VerifyView_get gateway request w =
      (Raise e,
       mkWorld (db w) (session_cart w)
         (verify_request authority payment :: outbox w)).
Proof.
  intros Hstatus Ha Hne Hget Hgw Hnone Hrefused.
  rewrite (VerifyView_get_found gateway request w authority (pk, payment) Ha Hne Hget).
  rewrite Hstatus, bool_decide_eq_true_2 by done. simpl. rewrite Hgw.
  unfold check_verification_result. view_unfold.
  unfold verified_ref_id in Hnone. unfold verify_refused in Hrefused.
  destruct verify_result as [| | | | | |o]; simpl; try by eauto.
  unfold dict_get at 1.
  destruct (dict_lookup "data" o) as [[| | | | | |data]|] eqn:Hdata; simpl;
    try by eauto.
  apply negb_false_iff in Hrefused. rewrite Hrefused.
  unfold dict_get in Hrefused.
  destruct (dict_lookup "code" data) as [code|]; [|done].
  simpl in Hrefused. rewrite Hrefused in Hnone.
  unfold dict_getitem. rewrite Hdata. simpl. unfold dict_getitem.
  rewrite Hnone. simpl. by eauto.
Qed.

Lemma verify_unusable_response_raises_witness :
  ∃ e, (e = AttributeError ∨ e = KeyError) ∧
    VerifyView_get (λ _, Ok (JObj [("data", JObj [("code", JNum 100)])]))
      (callback "OK" "A1") awaiting_payment =
      (Raise e,
       mkWorld (db awaiting_payment) (session_cart awaiting_payment)
         (verify_request "A1" pending_payment :: outbox awaiting_payment)).
Proof.
  apply (verify_unusable_response_raises
           (λ _, Ok (JObj [("data", JObj [("code", JNum 100)])]))
           (callback "OK" "A1") awaiting_payment "A1" 1 pending_payment
           (JObj [("data", JObj [("code", JNum 100)])]));
    [reflexivity | reflexivity | discriminate | by vm_compute | reflexivity
    | reflexivity | reflexivity].
Defined.

Lemma Payment_objects_get_MultipleObjectsReturned a s (table : gmap Z Payment.t)
    pk1 p1 pk2 p2 :
  pk1 ≠ pk2 →
  table !! pk1 = Some p1 → Payment.authority p1 = a → Payment.status p1 = s →
  table !! pk2 = Some p2 → Payment.authority p2 = a → Payment.status p2 = s →
  Payment_objects_get a s table = Raise MultipleObjectsReturned.
Proof.
  intros Hne Hpk1 Ha1 Hs1 Hpk2 Ha2 Hs2. unfold Payment_objects_get.
  set (found := filter _ table).
  assert (found !! pk1 = Some p1) as H1 by by apply map_lookup_filter_Some.
  assert (found !! pk2 = Some p2) as H2 by by apply map_lookup_filter_Some.
  destruct (map_to_list found) as [|[pk0 p0] [|??]] eqn:Hl; [| |done].
  - apply map_to_list_empty_iff in Hl. by rewrite Hl, lookup_empty in H1.
  - assert (found = {[ pk0 := p0 ]}) as Hf.
    { rewrite <- (list_to_map_to_list found), Hl. simpl. by rewrite insert_empty. }
    rewrite Hf in H1, H2.
    apply lookup_singleton_Some in H1 as [<- _].
    by apply lookup_singleton_Some in H2 as [<- _].
Qed.

(** X17.  [Payment.authority] is not unique in the model: when two pending
    payments carry the callback's authority, the lookup raises
    [MultipleObjectsReturned], which the view does not catch, and neither
    payment is settled or changed. *)
Theorem verify_duplicate_authority gateway request w authority pk1 p1 pk2 p2 :
  dict_lookup "Authority" (GET request) = Some authority → authority ≠ "" →
  pk1 ≠ pk2 →
  payments (db w) !! pk1 = Some p1 → payments (db w) !! pk2 = Some p2 →
  Payment.authority p1 = authority → Payment.authority p2 = authority →
  Payment.status p1 = Payment.STATUS_PENDING →
  Payment.status p2 = Payment.STATUS_PENDING →
  VerifyView_get gateway request w = (Raise MultipleObjectsReturned, w).
Proof.
  intros Ha Hne Hpk Hp1 Hp2 Ha1 Ha2 Hs1 Hs2. unfold VerifyView_get. rewrite Ha.
  destruct authority as [|c authority]; [done|].
  view_unfold. simpl.
  by rewrite (Payment_objects_get_MultipleObjectsReturned _ _ _ pk1 p1 pk2 p2).
Qed.

Lemma verify_duplicate_authority_witness :
  VerifyView_get sandbox_gateway (callback "OK" "A1")
    (mkWorld (mkDB ∅ ∅ ∅ {[ 1 := pending_payment; 2 := pending_payment ]}) None [])
  = (Raise MultipleObjectsReturned,
     mkWorld (mkDB ∅ ∅ ∅ {[ 1 := pending_payment; 2 := pending_payment ]}) None []).
Proof.
  apply (verify_duplicate_authority sandbox_gateway (callback "OK" "A1") _ "A1"
           1 pending_payment 2 pending_payment);
    [reflexivity | discriminate | lia | reflexivity | reflexivity | reflexivity
    | reflexivity | reflexivity | reflexivity].
Defined.

(** ** The cart requests *)

(** X18.  The three cart requests (add, remove, empty) write the session's
    cart and nothing else: the database is as it was and the gateway is not
    asked.  The only exception they raise is [Http404], for adding a product
    that does not exist, and then the cart is unchanged too. *)
Theorem cart_requests_touch_only_the_session gateway (r : Request) (w : World) :
  match r with
  | POST_checkout _ | GET_verify _ => True
  | _ =>
      let result := handle gateway r w in
      db result.2 = db w ∧ outbox result.2 = outbox w ∧
      ∀ e, result.1 = Raise e →
           e = Http404 ∧ result.2 = w ∧
           ∃ request item_id, r = GET_cart_add request item_id ∧
                              products (db w) !! item_id = None
  end.
Proof.
  destruct r as [request item_id|request item_id|request| |]; try done; simpl.
  - unfold AddToCartView_get, objects_get. view_unfold. simpl.
    destruct (products (db w) !! item_id) eqn:Hp; simpl.
    + by destruct (is_ajax _).
    + split; [done|]. split; [done|]. intros e [= <-].
      split; [done|]. split; [done|]. by exists request, item_id.
  - unfold RemoveFromCartView_post. view_unfold. simpl. by destruct (is_ajax _).
  - unfold EmptyCartView_get. view_unfold. simpl. by destruct (is_ajax _).
Qed.

(** ** The caller's address *)

Lemma before_comma_spec (s : string) :
  (s = before_comma s ∨ ∃ rest, s = before_comma s +:+ String ","%char rest) ∧
  ∀ pre post, before_comma s ≠ pre +:+ String ","%char post.
Proof.
  induction s as [|c s [IH1 IH2]].
  - split; [by left|]. intros [|??] post; done.
  - simpl. destruct (decide (c = ","%char)) as [->|Hne].
    + rewrite bool_decide_eq_true_2 by done. split; [right; by exists s|].
      intros [|??] post; done.
    + rewrite bool_decide_eq_false_2 by done. split.
      * destruct IH1 as [IH1|[rest IH1]]; [left | right; exists rest].
        -- by f_equal.
        -- change (String c s = String c (before_comma s +:+ String ","%char rest)).
           by f_equal.
      * intros [|c' pre] post; simpl; intros [= ? Heq]; [done|].
        by apply (IH2 pre post).
Qed.

(** X19.  [get_user_ip] answers the first entry of a non-empty
    [X-Forwarded-For] header, that is, the part of the header before its
    first comma (the whole header when it has none), and [REMOTE_ADDR] when
    the header is absent or empty. *)
Theorem get_user_ip_spec (request : HttpRequest) :
  let forwarded := dict_lookup "HTTP_X_FORWARDED_FOR" (META request) in
  (∀ x, forwarded = Some x → x ≠ "" →
     ∃ ip, get_user_ip request = Some ip ∧
           (x = ip ∨ ∃ rest, x = ip +:+ String ","%char rest) ∧
           ∀ pre post, ip ≠ pre +:+ String ","%char post) ∧
  (forwarded = None ∨ forwarded = Some "" →
     get_user_ip request = dict_lookup "REMOTE_ADDR" (META request)).
Proof.
  intros forwarded. unfold get_user_ip. fold forwarded. split.
  - intros x -> Hx. destruct x as [|c x]; [done|].
    exists (before_comma (String c x)). split; [done|]. apply before_comma_spec.
  - by intros [-> | ->].
Qed.

Lemma get_user_ip_spec_witness :
  get_user_ip
    (mkRequest None [] []
       [("HTTP_X_FORWARDED_FOR", "203.0.113.7, 10.0.0.1"); ("REMOTE_ADDR", "10.0.0.2")]
       [] "https://shop.example")
  = Some "203.0.113.7" ∧
  get_user_ip buyer_post = Some "203.0.113.7".
Proof.
  split.
  - destruct (get_user_ip_spec
                (mkRequest None [] []
                   [("HTTP_X_FORWARDED_FOR", "203.0.113.7, 10.0.0.1");
                    ("REMOTE_ADDR", "10.0.0.2")] [] "https://shop.example"))
      as [H _].
    destruct (H "203.0.113.7, 10.0.0.1" eq_refl ltac:(discriminate))
      as (ip & Hip & _).
    rewrite Hip. by vm_compute in Hip.
  - destruct (get_user_ip_spec buyer_post) as [_ H]. rewrite H; [reflexivity|].
    by left.
Defined.

(** ** The avatar's crop box *)

(** X20.  For every image size, the box [(x0, y0, x1, y1)] that
    [_process_avatar] crops is a square whose side is the smaller dimension,
    lies inside the image, touches the image's border in the smaller
    dimension, and is centred in the other one up to the one pixel that
    floor division leaves. *)
Theorem avatar_crop_box_centered_square (width height : Z) :
  let '(x0, y0, x1, y1) := avatar_crop_box width height in
  x1 - x0 = Z.min width height ∧
  y1 - y0 = Z.min width height ∧
  0 ≤ x0 ∧ x1 ≤ width ∧ 0 ≤ y0 ∧ y1 ≤ height ∧
  (x0 = 0 ∨ y0 = 0) ∧
  0 ≤ (width - x1) - x0 ≤ 1 ∧
  0 ≤ (height - y1) - y0 ≤ 1.
Proof.
  unfold avatar_crop_box. cbv zeta.
  pose proof (Z.div_mod (width - Z.min width height) 2 ltac:(lia)).
  pose proof (Z.mod_pos_bound (width - Z.min width height) 2 ltac:(lia)).
  pose proof (Z.div_mod (height - Z.min width height) 2 ltac:(lia)).
  pose proof (Z.mod_pos_bound (height - Z.min width height) 2 ltac:(lia)).
  assert (Z.min width height = width ∨ Z.min width height = height) as [Hm|Hm]
    by lia.
  - assert ((width - Z.min width height) `div` 2 = 0) as Hl.
    { by rewrite Hm, Z.sub_diag. }
    split_and!; try lia.
  - assert ((height - Z.min width height) `div` 2 = 0) as Ht.
    { by rewrite Hm, Z.sub_diag. }
    split_and!; try lia.
Qed.

(** ** Saving a category in the admin *)

(** X21.  After [CategoryAdmin.save_model] the category has a deletion date
    exactly when it is marked deleted: marking it sets the date to now, a
    date already set is kept, and unmarking it clears the date.  The user
    of a category that has one is kept, and saving again changes nothing
    more. *)
Theorem save_model_deleted_date (request_user now : Z) (obj : Category.t) :
  let saved := CategoryAdmin_save_model request_user now obj in
  Category.deleted saved = Category.deleted obj ∧
  (is_Some (Category.deleted_date saved) ↔ Category.deleted obj = true) ∧
  (∀ d, Category.deleted obj = true → Category.deleted_date obj = Some d →
        Category.deleted_date saved = Some d) ∧
  (Category.deleted obj = true → Category.deleted_date obj = None →
   Category.deleted_date saved = Some now) ∧
  (∀ u, Category.user_id obj = Some u → u ≠ 0 → Category.user_id saved = Some u) ∧
  (request_user ≠ 0 →
   ∀ request_user' now',
     CategoryAdmin_save_model request_user' now' saved = saved).
Proof.
  destruct obj as [[[|u|u]|] [] [d|]]; unfold CategoryAdmin_save_model; simpl;
    (split_and!;
     [done
     |split; [by intros [??] | by eauto]
     |by intros ? ? [= <-] || done
     |done
     |by intros ? [= <-] ? || done
     |intros Hne request_user' now'; destruct request_user; done]).
Qed.

Lemma save_model_deleted_date_witness :
  let saved := CategoryAdmin_save_model 7 1000 (Category.mk None true None) in
  saved = Category.mk (Some 7) true (Some 1000) ∧
  CategoryAdmin_save_model 8 2000 saved = saved.
Proof.
  destruct (save_model_deleted_date 7 1000 (Category.mk None true None))
    as (_ & _ & _ & _ & _ & H).
  split; [reflexivity|]. apply H. lia.
Defined.

(** ** What the two payment views leave alone *)

(** X22.  The verify callback never creates or deletes a row: the invoice
    items are untouched, and the payments, invoices and products keep their
    keys; at most one payment and at most one invoice are rewritten, and
    the payment that is rewritten was pending. *)
Theorem verify_frame gateway request w :
  let result := VerifyView_get gateway request w in
  invoice_items (db result.2) = invoice_items (db w) ∧
  dom (products (db result.2)) = dom (products (db w)) ∧
  dom (payments (db result.2)) = dom (payments (db w)) ∧
  dom (invoices (db result.2)) = dom (invoices (db w)) ∧
  (payments (db result.2) = payments (db w) ∨
   ∃ pk payment payment',
     payments (db w) !! pk = Some payment ∧
     Payment.status payment = Payment.STATUS_PENDING ∧
     payments (db result.2) = <[pk := payment']> (payments (db w))) ∧
  (invoices (db result.2) = invoices (db w) ∨
   ∃ i invoice invoice',
     invoices (db w) !! i = Some invoice ∧
     invoices (db result.2) = <[i := invoice']> (invoices (db w))).
Proof.
  intros result.
  destruct (VerifyView_get_cases gateway request w) as (Hitems & Hproducts & Hcases).
  fold result in Hitems, Hproducts, Hcases.
  assert (∀ {R} (table : gmap Z R) k x y,
            table !! k = Some x → dom (<[k := y]> table) = dom table) as Hdom.
  { intros R table k x y Hk. apply set_eq. intros i. rewrite !elem_of_dom.
    destruct (decide (i = k)) as [->|Hne].
    - rewrite lookup_insert_eq, Hk. split; by eauto.
    - by rewrite lookup_insert_ne. }
  split; [done|]. split.
  { apply set_eq. intros id. by rewrite !elem_of_dom. }
  destruct Hcases as [(Hp & Hi & _)|(authority & pk & payment & _ & _ & Hget & Hcases)].
  { rewrite Hp, Hi. split_and!; auto. }
  apply Payment_objects_get_Ok in Hget as (Hpk & _ & Hpending & _).
  destruct Hcases as [(Hp & Hi & _)|(ref & Hp & Hcases)].
  { rewrite Hp, Hi. split_and!; [by eapply Hdom|done| |by left].
    right. by eexists _, _, _. }
  rewrite Hp. split; [by eapply Hdom|].
  destruct Hcases as [(e & _ & Hi & _)|(invoice & context & Hinvoice & _ & Hi)];
    rewrite Hi.
  - split_and!; [done| |by left]. right. by eexists _, _, _.
  - split_and!; [by eapply Hdom| |].
    + right. by eexists _, _, _.
    + right. by eexists _, _, _.
Qed.




(** ** A purchase from checkout to settlement *)




(** ** Change detection of an image field *)

(** X25.  Whether an image field counts as changed never depends on the
    [temporary_file_path] test: for a saved instance it is changed exactly
    when one of the original and the current file is missing and the other
    is not, or both are there and the current file's name differs from the
    tracked original name; for an unsaved instance it is changed exactly
    when it has a file. *)
Theorem image_has_changed_spec (pk : option Z)
    (original original_name image : option string) (uploaded : bool) :
  _image_has_changed pk original original_name image uploaded
    = _image_has_changed pk original original_name image (negb uploaded) ∧
  (pk_truthy pk = false →
   _image_has_changed pk original original_name image uploaded
     = name_truthy image) ∧
  (pk_truthy pk = true →
   (_image_has_changed pk original original_name image uploaded = true ↔
    name_truthy original ≠ name_truthy image ∨
    (name_truthy original = true ∧ name_truthy image = true ∧
     original_name ≠ image))).
Proof.
  unfold _image_has_changed.
  destruct (pk_truthy pk); simpl.
  2:{ split; [done|]. split; [done|]. intros [=]. }
  destruct (name_truthy original) eqn:Ho, (name_truthy image) eqn:Hi; simpl;
    rewrite ?Hi; simpl.
  - destruct (decide (original_name = image)) as [Heq|Hne].
    + rewrite bool_decide_eq_true_2 by done. split; [done|]. split; [done|].
      intros _. split; [done|]. intros [?|(_ & _ & ?)]; done.
    + rewrite bool_decide_eq_false_2 by done. simpl.
      split; [by destruct uploaded|]. split; [done|]. intros _.
      split; [by right|]. by destruct uploaded.
  - split; [done|]. split; [done|]. intros _. split; [by left|done].
  - split; [done|]. split; [done|]. intros _. split; [by left|done].
  - split; [done|]. split; [done|]. intros _.
    split; [done|]. intros [?|(? & _)]; done.
Qed.

Lemma image_has_changed_spec_witness :
  _image_has_changed (Some 3) (Some "a.jpg") (Some "a.jpg") (Some "b.jpg") false
    = true ∧
  _image_has_changed (Some 3) (Some "a.jpg") (Some "a.jpg") (Some "a.jpg") true
    = false.
Proof.
  destruct (image_has_changed_spec (Some 3) (Some "a.jpg") (Some "a.jpg")
              (Some "b.jpg") false) as (_ & _ & H1).
  destruct (image_has_changed_spec (Some 3) (Some "a.jpg") (Some "a.jpg")
              (Some "a.jpg") true) as (_ & _ & H2).
  split.
  - apply H1; [reflexivity|]. right. split_and!; [reflexivity..|discriminate].
  - reflexivity.
Defined.
